(** * elastix: SplineKernelTransform and TransformixFilter

    A shallow embedding of

      - [Components/Transforms/SplineKernelTransform/elxSplineKernelTransform.hxx]
        (module [SplineKernelTransform]), and
      - [elxTransformixFilter.hxx] (module [TransformixFilter]),

    with the properties of the specification stated over it.

    Conventions.
      - An [unsigned int] is a [Z] in [0, 2^32) and its arithmetic is
        written with [wrap32].
      - A [double] is idealised as a rational; the embedded code performs
        no arithmetic on doubles, it only moves them around.
      - A [std::map] is a [gmap]; a [std::string] is a [string].
      - A method that can raise returns a [Result]. *)

From stdpp Require Import gmap strings list fin_maps.
From Stdlib Require Import Ascii ZArith QArith Qround Lia.

Local Open Scope Z_scope.

(** ** Machine integers *)

Definition wrap32 (z : Z) : Z := z mod 2 ^ 32.

(** ** Exceptions and results *)

Inductive Result (E A : Type) : Type :=
| Ok (a : A)
| Raise (e : E).
Arguments Ok {E A} a.
Arguments Raise {E A} e.

Global Instance Result_ret {E} : MRet (Result E) := fun _ a => Ok a.

Global Instance Result_bind {E} : MBind (Result E) := fun _ _ k r =>
  match r with
  | Ok a => k a
  | Raise e => Raise e
  end.

Definition raises {E A} (r : Result E A) : Prop :=
  match r with Ok _ => False | Raise _ => True end.

Definition returns {E A} (r : Result E A) : Prop :=
  match r with Ok _ => True | Raise _ => False end.

Module SplineKernelTransform.

(** ** The ITK kernel transform object

    [itk::KernelTransform2] and its subclasses are not part of these
    sources.  The object is a record of what the wrapper sets on it. *)

Definition Point := list Q.
Definition PointSet := list Point.

(** The concrete class behind [m_KernelTransform]. *)
Inductive KernelTransformClass :=
| KernelTransformType      (* the generic base class *)
| TPKernelTransformType    (* ThinPlateSplineKernelTransform2 *)
| TPRKernelTransformType   (* ThinPlateR2LogRSplineKernelTransform2 *)
| VKernelTransformType     (* VolumeSplineKernelTransform2 *)
| EBKernelTransformType    (* ElasticBodySplineKernelTransform2 *)
| EBRKernelTransformType.  (* ElasticBodyReciprocalSplineKernelTransform2 *)

(** The moving side of a kernel transform: nothing yet, the target
    landmarks, or the identity mapping. *)
Inductive TargetState :=
| TargetUnset
| TargetLandmarks (pts : PointSet)
| TargetIdentity.

(** Modelled from the spec: the ITK kernel transform class is missing from
    the sources.  Each setter writes the field it names; a field that was
    never set since [New] is [None] (the class default).  Following 4.3
    ("the full set of fixed (source) landmark coordinates flattened into
    one ordered list") the fixed parameters are the flattened source
    landmarks, so [SetSourceLandmarks] and [SetFixedParameters] write the
    same field. *)
Record KernelTransform := {
  KernelClass : KernelTransformClass;
  Stiffness : option Q;
  PoissonRatio : option Q;
  MatrixInversionMethod : option string;
  FixedParameters : list Q;
  Target : TargetState
}.

Definition New (c : KernelTransformClass) : KernelTransform :=
  {| KernelClass := c; Stiffness := None; PoissonRatio := None;
     MatrixInversionMethod := None; FixedParameters := [];
     Target := TargetUnset |}.

Definition SetStiffness (v : Q) (k : KernelTransform) : KernelTransform :=
  {| KernelClass := KernelClass k; Stiffness := Some v; PoissonRatio := PoissonRatio k;
     MatrixInversionMethod := MatrixInversionMethod k;
     FixedParameters := FixedParameters k; Target := Target k |}.

Definition SetPoissonRatio (v : Q) (k : KernelTransform) : KernelTransform :=
  {| KernelClass := KernelClass k; Stiffness := Stiffness k; PoissonRatio := Some v;
     MatrixInversionMethod := MatrixInversionMethod k;
     FixedParameters := FixedParameters k; Target := Target k |}.

Definition SetMatrixInversionMethod (m : string) (k : KernelTransform)
  : KernelTransform :=
  {| KernelClass := KernelClass k; Stiffness := Stiffness k; PoissonRatio := PoissonRatio k;
     MatrixInversionMethod := Some m;
     FixedParameters := FixedParameters k; Target := Target k |}.

Definition SetFixedParameters (ps : list Q) (k : KernelTransform)
  : KernelTransform :=
  {| KernelClass := KernelClass k; Stiffness := Stiffness k; PoissonRatio := PoissonRatio k;
     MatrixInversionMethod := MatrixInversionMethod k;
     FixedParameters := ps; Target := Target k |}.

Definition SetSourceLandmarks (pts : PointSet) (k : KernelTransform)
  : KernelTransform :=
  SetFixedParameters (concat pts) k.

Definition SetTarget (t : TargetState) (k : KernelTransform) : KernelTransform :=
  {| KernelClass := KernelClass k; Stiffness := Stiffness k; PoissonRatio := PoissonRatio k;
     MatrixInversionMethod := MatrixInversionMethod k;
     FixedParameters := FixedParameters k; Target := t |}.

Definition SetTargetLandmarks (pts : PointSet) : KernelTransform → KernelTransform :=
  SetTarget (TargetLandmarks pts).

Definition SetIdentity : KernelTransform → KernelTransform :=
  SetTarget TargetIdentity.

(** ** The wrapper object

    [m_KernelTransform] is a smart pointer and [SetCurrentTransform] stores
    the same pointer in the combination transform, so later setters on
    [m_KernelTransform] are seen through the current transform.  Only these
    two references exist: the current transform is either null, an alias of
    [m_KernelTransform], or an older kernel object that the wrapper can no
    longer reach (and so never mutates). *)
Inductive CurrentTransformRef :=
| CurrentNull
| CurrentIsKernelTransform
| CurrentDetached (old : KernelTransform).

Record t := {
  m_SplineKernelType : string;
  m_KernelTransform : KernelTransform;
  CurrentTransform : CurrentTransformRef;
  (** [m_Registration]'s initial transform parameters, once set. *)
  InitialTransformParameters : option TargetState
}.

(** What happens to the current-transform reference when
    [m_KernelTransform] is re-pointed without [SetCurrentTransform]. *)
Definition detach (this : t) : CurrentTransformRef :=
  match CurrentTransform this with
  | CurrentIsKernelTransform => CurrentDetached (m_KernelTransform this)
  | r => r
  end.

(** [SetKernelType], lines 42-94.  The branch for "ThinPlateR2LogRSpline"
    is commented out in the source and so is absent here. *)
Definition SetKernelType (SpaceDimension : nat) (kernelType : string) (this : t)
  : bool * t :=
  let selected (c : KernelTransformClass) :=
    (true, {| m_SplineKernelType := kernelType;
              m_KernelTransform := New c;
              CurrentTransform := CurrentIsKernelTransform;
              InitialTransformParameters := InitialTransformParameters this |}) in
  if decide (SpaceDimension = 2%nat) then selected TPRKernelTransformType
  else if decide (kernelType = "ThinPlateSpline") then selected TPKernelTransformType
  else if decide (kernelType = "VolumeSpline") then selected VKernelTransformType
  else if decide (kernelType = "ElasticBodySpline") then selected EBKernelTransformType
  else if decide (kernelType = "ElasticBodyReciprocalSpline")
       then selected EBRKernelTransformType
  else (false, {| m_SplineKernelType := kernelType;
                  m_KernelTransform := New KernelTransformType;
                  CurrentTransform := detach this;
                  InitialTransformParameters := InitialTransformParameters this |}).

(** The object before the constructor body runs: the smart pointers are
    null.  A null [m_KernelTransform] is never read by [SetKernelType]
    (with [CurrentNull], [detach] ignores it), so the field is filled with
    a placeholder. *)
Definition unconstructed : t :=
  {| m_SplineKernelType := "";
     m_KernelTransform := New KernelTransformType;
     CurrentTransform := CurrentNull;
     InitialTransformParameters := None |}.

(** The constructor, lines 30-35. *)
Definition Constructor (SpaceDimension : nat) : t :=
  snd (SetKernelType SpaceDimension "unknown" unconstructed).

(** The parameters seen through the combination transform are those of
    its current transform: for a kernel transform, its moving side.  With
    no current transform there are none. *)
Definition GetParameters (this : t) : option TargetState :=
  match CurrentTransform this with
  | CurrentNull => None
  | CurrentIsKernelTransform => Some (Target (m_KernelTransform this))
  | CurrentDetached old => Some (Target old)
  end.

(** Apply a setter through the [m_KernelTransform] pointer. *)
Definition on_kernel (f : KernelTransform → KernelTransform) (this : t) : t :=
  {| m_SplineKernelType := m_SplineKernelType this;
     m_KernelTransform := f (m_KernelTransform this);
     CurrentTransform := CurrentTransform this;
     InitialTransformParameters := InitialTransformParameters this |}.

(** ** Exceptions

    One constructor per raise site; the two sites of [ReadFromFile] raise
    the same message ("unable to configure transform") and are told apart
    by the line written to the error stream just before. *)
Inductive Exception :=
| KernelTypeNotSupported (kernelType : string)   (* BeforeRegistration, 172-178 *)
| LandmarkFileError (filename : string)          (* ReadLandmarkFile, 322-327 *)
| SplineKernelTypeNotGiven                       (* ReadFromFile, 415-420 *)
| FixedImageLandmarksNotGiven                    (* ReadFromFile, 444-449 *)
| ParameterReaderError (name : string)           (* raised inside ReadParameter *)
| BaseClassError (what : string).                (* raised inside Superclass2 *)

(** ** The configuration collaborator *)

(** What [ReadParameter] does when the key is given but the requested
    entry cannot be delivered (it lies beyond the supplied values, or its
    text does not cast to the requested type).  The sources do not say, so
    the policy is left open, and each property below says for which
    policies it holds. *)
Inductive IrregularPolicy :=
| IrregularThrows          (* the reader raises *)
| IrregularNotFound        (* returns false, the caller's value is kept *)
| IrregularKeepsDefault.   (* returns true, the caller's value is kept *)

Record Configuration := {
  CommandLineArguments : gmap string string;
  ParameterMap : gmap string (list string);
  StringCast_double : string → option Q;
  StringCast_uint : string → option Z;
  Irregular : IrregularPolicy
}.

(** An absent command line argument reads as the empty string. *)
Definition GetCommandLineArgument (cfg : Configuration) (key : string) : string :=
  default "" (CommandLineArguments cfg !! key).

Definition irregular {A} (cfg : Configuration) (name : string) (param : A)
  : Result Exception (bool * A) :=
  match Irregular cfg with
  | IrregularThrows => Raise (ParameterReaderError name)
  | IrregularNotFound => Ok (false, param)
  | IrregularKeepsDefault => Ok (true, param)
  end.

(** Modelled from the spec: [Configuration::ReadParameter] is missing from
    the sources.  The parameter map is a "mapping from parameter name
    (string) to an ordered list of string values"; a read of one entry
    takes the caller's current value [param] (the C++ in-out argument) and
    returns whether the parameter was found together with the new value.
    A name that is not given (no entry, or no values) is reported as not
    found and leaves the value alone, which is how lines 411-420 and
    444-449 read the returned flag. *)
Definition ReadParameter {A} (cast : string → option A) (cfg : Configuration)
    (param : A) (name : string) (entry_nr : Z) : Result Exception (bool * A) :=
  match ParameterMap cfg !! name with
  | None | Some [] => Ok (false, param)
  | Some vs =>
      match vs !! Z.to_nat entry_nr ≫= cast with
      | Some v => Ok (true, v)
      | None => irregular cfg name param
      end
  end.

(** Modelled from the spec: the overload with a component-label prefix
    (called with [default_entry_nr = -1]) is missing from the sources.  It
    tries the plain name and then the prefixed name, the latter taking
    precedence. *)
Definition ReadParameter_prefixed {A} (cast : string → option A)
    (cfg : Configuration) (param : A) (name prefix : string) (entry_nr : Z)
  : Result Exception (bool * A) :=
  '(found1, param1) ← ReadParameter cast cfg param name entry_nr;
  '(found2, param2) ← ReadParameter cast cfg param1 (prefix +:+ name) entry_nr;
  Ok (found1 || found2, param2).

(** Modelled from the spec: the overload reading the entries
    [entry_nr_start .. entry_nr_end] into a vector is missing from the
    sources.  When all requested entries are supplied and cast, they
    overwrite the leading elements of [param]. *)
Definition ReadParameter_range {A} (cast : string → option A)
    (cfg : Configuration) (param : list A) (name : string)
    (entry_nr_start entry_nr_end : Z) : Result Exception (bool * list A) :=
  match ParameterMap cfg !! name with
  | None | Some [] => Ok (false, param)
  | Some vs =>
      if bool_decide (0 ≤ entry_nr_start ≤ entry_nr_end
                      ∧ entry_nr_end < Z.of_nat (length vs)) then
        match mapM cast (take (Z.to_nat (entry_nr_end - entry_nr_start + 1))
                              (drop (Z.to_nat entry_nr_start) vs)) with
        | Some xs => Ok (true, xs ++ drop (length xs) param)
        | None => irregular cfg name param
        end
      else irregular cfg name param
  end.

(** ** The elastix collaborators of the component *)

(** What [itk::TransformixInputPointFileReader] delivers for a file. *)
Record LandmarkFile := {
  PointsAreIndices : bool;
  Points : PointSet
}.

Record Elastix := {
  GetConfiguration : Configuration;
  GetComponentLabel : string;
  (** The landmark files the reader can open; [Update] raises on any other
      file name. *)
  LandmarkFiles : gmap string LandmarkFile;
  (** [itk::Math::Round< double >]. *)
  MathRound : Q → Z;
  (** [TransformIndexToPhysicalPoint] of the fixed and the moving image. *)
  FixedImage_TransformIndexToPhysicalPoint : list Z → Point;
  MovingImage_TransformIndexToPhysicalPoint : list Z → Point;
  GetUseComposition : bool;
  (** [Superclass1::GetInitialTransform()], null or its [TransformPoint]. *)
  GetInitialTransform : option (Point → Point);
  (** [Superclass2] is [TransformBase], which is not part of the sources;
      when it raises, it does so with a message of its own. *)
  Superclass2_ReadFromFile : t → Result string t
}.

(** [ReadLandmarkFile], lines 302-395.  The reader's number of points is
    the number of points of its output. *)
Definition ReadLandmarkFile (elx : Elastix) (filename : string)
    (landmarksInFixedImage : bool) : Result Exception PointSet :=
  match LandmarkFiles elx !! filename with
  | None => Raise (LandmarkFileError filename)
  | Some landmarkReader =>
      let landmarkPointSet := Points landmarkReader in
      (* Convert from index to point if necessary *)
      let landmarkPointSet :=
        if PointsAreIndices landmarkReader then
          (λ landmarkPoint,
             let landmarkIndex := MathRound elx <$> landmarkPoint in
             if landmarksInFixedImage
             then FixedImage_TransformIndexToPhysicalPoint elx landmarkIndex
             else MovingImage_TransformIndexToPhysicalPoint elx landmarkIndex)
            <$> landmarkPointSet
        else landmarkPointSet in
      (* Apply initial transform if necessary, for fixed image landmarks only. *)
      let landmarkPointSet :=
        match GetInitialTransform elx with
        | Some TransformPoint =>
            if landmarksInFixedImage && GetUseComposition elx
            then TransformPoint <$> landmarkPointSet
            else landmarkPointSet
        | None => landmarkPointSet
        end in
      Ok landmarkPointSet
  end.

(** [DetermineSourceLandmarks], lines 226-256. *)
Definition DetermineSourceLandmarks (elx : Elastix) (this : t)
  : Result Exception t :=
  let ipp := GetCommandLineArgument (GetConfiguration elx) "-ipp" in
  let fp := GetCommandLineArgument (GetConfiguration elx) "-fp" in
  let fp := if decide (fp = "") then ipp else fp in
  landmarkPointSet ← ReadLandmarkFile elx fp true;
  Ok (on_kernel (SetSourceLandmarks landmarkPointSet) this).

(** [DetermineTargetLandmarks], lines 263-295. *)
Definition DetermineTargetLandmarks (elx : Elastix) (this : t)
  : Result Exception (bool * t) :=
  let mp := GetCommandLineArgument (GetConfiguration elx) "-mp" in
  if decide (mp = "") then Ok (false, this)
  else
    landmarkPointSet ← ReadLandmarkFile elx mp false;
    Ok (true, on_kernel (SetTargetLandmarks landmarkPointSet) this).

(** [BeforeRegistration], lines 162-219.  The second name of the Poisson
    test is spelled as in the source. *)
Definition BeforeRegistration (SpaceDimension : nat) (elx : Elastix) (this : t)
  : Result Exception t :=
  let cfg := GetConfiguration elx in
  (* Determine type of spline. *)
  '(_, kernelType) ← ReadParameter_prefixed Some cfg "ThinPlateSpline"
                        "SplineKernelType" (GetComponentLabel elx) 0;
  let '(knownType, this) := SetKernelType SpaceDimension kernelType this in
  if negb knownType then Raise (KernelTypeNotSupported kernelType)
  else
    (* Interpolating or approximating spline. *)
    '(_, splineRelaxationFactor) ←
       ReadParameter_prefixed (StringCast_double cfg) cfg 0%Q
         "SplineRelaxationFactor" (GetComponentLabel elx) 0;
    let this := on_kernel (SetStiffness splineRelaxationFactor) this in
    (* Set the Poisson ratio; default = 0.3 = steel. *)
    this ←
      (if bool_decide (kernelType = "ElasticBodySpline")
          || bool_decide (kernelType = "ElastixBodyReciprocalSpline")
       then
         '(_, poissonRatio) ←
            ReadParameter_prefixed (StringCast_double cfg) cfg (3 # 10)%Q
              "SplinePoissonRatio" (GetComponentLabel elx) 0;
         Ok (on_kernel (SetPoissonRatio poissonRatio) this)
       else Ok this);
    (* Set the matrix inversion method (one of {SVD, QR}). *)
    '(_, matrixInversionMethod) ←
       ReadParameter Some cfg "SVD" "TPSMatrixInversionMethod" 0;
    let this := on_kernel (SetMatrixInversionMethod matrixInversionMethod) this in
    (* Load fixed image (source) landmark positions. *)
    this ← DetermineSourceLandmarks elx this;
    (* Load moving image (target) landmark positions. *)
    '(movingLandmarksGiven, this) ← DetermineTargetLandmarks elx this;
    (* Set all parameters to identity if no moving landmarks were given. *)
    let this := if negb movingLandmarksGiven
                then on_kernel SetIdentity this else this in
    (* Set the initial parameters in this->m_Registration. *)
    Ok {| m_SplineKernelType := m_SplineKernelType this;
          m_KernelTransform := m_KernelTransform this;
          CurrentTransform := CurrentTransform this;
          InitialTransformParameters := GetParameters this |}.

(** [ReadFromFile], lines 402-466.  The flag returned by [SetKernelType]
    and the one returned by the read of "NumberOfParameters" are dropped,
    as in the source; [numberOfParameters - 1] is unsigned arithmetic. *)
Definition ReadFromFile (SpaceDimension : nat) (elx : Elastix) (this : t)
  : Result Exception t :=
  let cfg := GetConfiguration elx in
  (* Read kernel type. *)
  '(skret, kernelType) ← ReadParameter Some cfg "unknown" "SplineKernelType" 0;
  if negb skret then Raise SplineKernelTypeNotGiven
  else
    let this := snd (SetKernelType SpaceDimension kernelType this) in
    (* Interpolating or approximating spline. *)
    '(_, splineRelaxationFactor) ←
       ReadParameter_prefixed (StringCast_double cfg) cfg 0%Q
         "SplineRelaxationFactor" (GetComponentLabel elx) 0;
    let this := on_kernel (SetStiffness splineRelaxationFactor) this in
    (* Set the Poisson ratio; default = 0.3 = steel. *)
    '(_, poissonRatio) ←
       ReadParameter_prefixed (StringCast_double cfg) cfg (3 # 10)%Q
         "SplinePoissonRatio" (GetComponentLabel elx) 0;
    let this := on_kernel (SetPoissonRatio poissonRatio) this in
    (* Read number of parameters. *)
    '(_, numberOfParameters) ←
       ReadParameter (λ s, wrap32 <$> StringCast_uint cfg s) cfg 0
         "NumberOfParameters" 0;
    (* Read source landmarks. *)
    let fixedImageLandmarks := replicate (Z.to_nat numberOfParameters) 0%Q in
    '(retfil, fixedImageLandmarks) ←
       ReadParameter_range (StringCast_double cfg) cfg fixedImageLandmarks
         "FixedImageLandmarks" 0 (wrap32 (numberOfParameters - 1));
    if negb retfil then Raise FixedImageLandmarksNotGiven
    else
      (* Convert to fixedParameters type and set in transform. *)
      let fixedParams := take (Z.to_nat numberOfParameters) fixedImageLandmarks in
      let this := on_kernel (SetFixedParameters fixedParams) this in
      (* Call the ReadFromFile from the TransformBase. *)
      match Superclass2_ReadFromFile elx this with
      | Ok this => Ok this
      | Raise what => Raise (BaseClassError what)
      end.

(** ** Writing the transform parameter file *)

(** What is streamed to [xout["transpar"]], line by line.  The formatting
    of numbers belongs to the stream, so a parameter line keeps its
    values. *)
Inductive TransparValue :=
| Quoted (s : string)
| Number (q : Q)
| ClassDefault.   (* a value never set since [New]: the ITK class's own *)

Definition shown (o : option Q) : TransparValue :=
  match o with
  | Some q => Number q
  | None => ClassDefault
  end.

Inductive TransparLine :=
| EmptyLine
| CommentLine (text : string)
| ParameterLine (name : string) (values : list TransparValue).

(** Reading an array out of its bounds is undefined behaviour; the model
    stops there and reports the subscript. *)
Inductive Fault :=
| SubscriptOutOfRange (subscript size : Z).

(** [fixedParams.GetSize()], an unsigned value, taken at the width of
    the [unsigned int] loop counter it is compared with. *)
Definition GetSize (a : list Q) : Z := wrap32 (Z.of_nat (length a)).

(** [fixedParams[ i ]]. *)
Definition subscript (a : list Q) (i : Z) : Result Fault Q :=
  let fault := Raise (SubscriptOutOfRange i (Z.of_nat (length a))) in
  if bool_decide (0 ≤ i < Z.of_nat (length a)) then
    match a !! Z.to_nat i with
    | Some v => Ok v
    | None => fault
    end
  else fault.

(** The loop of lines 498-501 from counter [i] on:
    [for( ; i < bound; ++i ) out << fixedParams[ i ] << " "].  Every turn
    that does not fault has read one more element of the array, so
    [S (length a)] turns of fuel are never used up (see
    [WriteToFile_loop_spec]). *)
Fixpoint WriteToFile_loop (fuel : nat) (a : list Q) (i bound : Z)
  : Result Fault (list Q) :=
  match fuel with
  | O => Ok []
  | S fuel =>
      if bool_decide (i < bound) then
        v ← subscript a i;
        vs ← WriteToFile_loop fuel a (wrap32 (i + 1)) bound;
        Ok (v :: vs)
      else Ok []
  end.

(** [WriteToFile], lines 474-504.  [base] is what
    [Superclass2::WriteToFile( param )] has written. *)
Definition WriteToFile (base : list TransparLine) (this : t)
  : Result Fault (list TransparLine) :=
  let k := m_KernelTransform this in
  (* Write the fixed image landmarks. *)
  let fixedParams := FixedParameters k in
  let bound := wrap32 (GetSize fixedParams - 1) in
  vs ← WriteToFile_loop (S (length fixedParams)) fixedParams 0 bound;
  v ← subscript fixedParams (wrap32 (GetSize fixedParams - 1));
  Ok (base ++
      [ EmptyLine;
        CommentLine "SplineKernelTransform specific";
        ParameterLine "SplineKernelType" [Quoted (m_SplineKernelType this)];
        ParameterLine "SplinePoissonRatio" [shown (PoissonRatio k)];
        ParameterLine "SplineRelaxationFactor" [shown (Stiffness k)];
        ParameterLine "FixedImageLandmarks" (Number <$> (vs ++ [v])) ]).

(** ** Checking the command line: [BeforeAll] *)

(** The streams [BeforeAll] writes to. *)
Inductive Stream :=
| xout_warning
| xout_error
| elxout.

(** [BeforeAll], lines 101-155: the return code and the lines written.
    [elxGetClassName] is the component's class name. *)
Definition BeforeAll (elxGetClassName : string) (cfg : Configuration)
  : Z * list (Stream * string) :=
  let ipp := GetCommandLineArgument cfg "-ipp" in
  let fp := GetCommandLineArgument cfg "-fp" in
  (* Backwards compatibility stuff: *)
  let '(fp, log) :=
    if negb (bool_decide (ipp = ""))
    then (ipp, [(xout_warning, "WARNING: -ipp is deprecated, use -fp instead.")])
    else (fp, []) in
  (* Is the fixed landmark file specified? *)
  if bool_decide (ipp = "") && bool_decide (fp = "") then
    (1, log ++ [(xout_error,
                 "ERROR: -fp should be given for " +:+ elxGetClassName +:+
                 " in order to define the fixed image (source) landmarks.")])
  else
    let log := log ++ [(elxout, "-fp       " +:+ fp)] in
    let mp := GetCommandLineArgument cfg "-mp" in
    (* Is the moving landmark file specified? *)
    let log :=
      if bool_decide (mp = "")
      then log ++ [(elxout, "-mp       " +:+ "unspecified, assumed equal to -fp")]
      else log ++ [(elxout, "-mp       " +:+ mp)] in
    (0, log).

End SplineKernelTransform.

Module TransformixFilter.

(** ** Data *)

(** An image, as far as the filter looks at it: the size of its largest
    possible region, one entry per dimension. *)
Record Image := {
  Size : list Z
}.

(** The filter object: its inputs, its members and its primary output. *)
Record t := {
  InputImage : Image;
  TransformParameterObject : list (gmap string (list string));
  m_InputPointSetFileName : string;
  m_ComputeSpatialJacobian : bool;
  m_ComputeDeterminantOfSpatialJacobian : bool;
  m_ComputeDeformationField : bool;
  m_OutputDirectory : string;
  m_LogFileName : string;
  m_LogToConsole : bool;
  m_LogToFile : bool;
  ResultImage : option Image
}.

(** The constructor, lines 24-45.  [TInputImage::New()] has an empty
    region; the required parameter object is the caller's to supply. *)
Definition Constructor (InputImageDimension : nat)
    (transformParameterObject : list (gmap string (list string))) : t :=
  {| InputImage := {| Size := replicate InputImageDimension 0 |};
     TransformParameterObject := transformParameterObject;
     m_InputPointSetFileName := "";
     m_ComputeSpatialJacobian := false;
     m_ComputeDeterminantOfSpatialJacobian := false;
     m_ComputeDeformationField := false;
     m_OutputDirectory := "";
     m_LogFileName := "";
     m_LogToConsole := false;
     m_LogToFile := false;
     ResultImage := None |}.

Definition SetOutputDirectory (dir : string) (this : t) : t :=
  {| InputImage := InputImage this;
     TransformParameterObject := TransformParameterObject this;
     m_InputPointSetFileName := m_InputPointSetFileName this;
     m_ComputeSpatialJacobian := m_ComputeSpatialJacobian this;
     m_ComputeDeterminantOfSpatialJacobian :=
       m_ComputeDeterminantOfSpatialJacobian this;
     m_ComputeDeformationField := m_ComputeDeformationField this;
     m_OutputDirectory := dir;
     m_LogFileName := m_LogFileName this;
     m_LogToConsole := m_LogToConsole this;
     m_LogToFile := m_LogToFile this;
     ResultImage := ResultImage this |}.

Definition GraftOutput (image : Image) (this : t) : t :=
  {| InputImage := InputImage this;
     TransformParameterObject := TransformParameterObject this;
     m_InputPointSetFileName := m_InputPointSetFileName this;
     m_ComputeSpatialJacobian := m_ComputeSpatialJacobian this;
     m_ComputeDeterminantOfSpatialJacobian :=
       m_ComputeDeterminantOfSpatialJacobian this;
     m_ComputeDeformationField := m_ComputeDeformationField this;
     m_OutputDirectory := m_OutputDirectory this;
     m_LogFileName := m_LogFileName this;
     m_LogToConsole := m_LogToConsole this;
     m_LogToFile := m_LogToFile this;
     ResultImage := Some image |}.

(** [IsEmpty], lines 238-246.  An image has at least two dimensions; a
    size entry that is not there reads as 0. *)
Definition IsEmpty (inputImage : Image) : bool :=
  bool_decide (Size inputImage !!! 0%nat = 0) &&
  bool_decide (Size inputImage !!! 1%nat = 0).

(** ** Exceptions, one per [itkExceptionMacro] of [GenerateData] *)
Inductive Exception :=
| NothingRequested                              (* lines 59-61 *)
| OutputDirectoryDoesNotExist (dir : string)    (* line 83 *)
| DeformationFieldAndPointSet                   (* lines 90-91 *)
| ErrorWhileSettingUpXout                       (* line 150 *)
| EmptyParameterMap                             (* line 173 *)
| ErrorsDuringRegistration (what : string)      (* line 195 *)
| UncaughtErrorsDuringRegistration.             (* line 200 *)

(** ** The world outside the filter *)

(** What [transformix->Run] does. *)
Inductive RunOutcome :=
| RunReturns (isError : Z) (resultImageContainer : option (list Image))
| RunThrows (what : string).

(** Calls that reach process-wide state, in the order they are made. *)
Inductive Event :=
| XoutSetup (logFileName : string) (logToFile logToConsole : bool)
| TransformixRun
| UnloadComponents.

Record Environment := {
  (** The paths for which [itksys::SystemTools::FileExists] holds. *)
  FileSystem : gset string;
  (** [elx::xoutSetup]; a non-zero value reports failure. *)
  xoutSetup : string → bool → bool → Z;
  (** [TransformixMain::Run], given the input image container that was
      set (null when the input image is empty). *)
  Run : option (list Image) → gmap string string →
        list (gmap string (list string)) → RunOutcome;
  (** [PixelTypeName< PixelType >::ToString()] and the text of
      [InputImageDimension]. *)
  PixelTypeString : string;
  InputImageDimensionString : string
}.

Definition FileExists (env : Environment) (path : string) : bool :=
  bool_decide (path ∈ FileSystem env).

(** ** A state and exception monad for the method body

    A statement transforms the filter object and the event log and either
    goes on with a value or raises; what was changed before a raise stays
    changed. *)
Record World := {
  this_ : t;
  events : list Event
}.

Definition M (A : Type) : Type := World → Result Exception A * World.

Global Instance M_ret : MRet M := λ _ a w, (Ok a, w).

Global Instance M_bind : MBind M := λ _ _ k m w,
  match m w with
  | (Ok a, w') => k a w'
  | (Raise e, w') => (Raise e, w')
  end.

Definition get : M t := λ w, (Ok (this_ w), w).

Definition modify (f : t → t) : M unit :=
  λ w, (Ok (), {| this_ := f (this_ w); events := events w |}).

Definition emit (e : Event) : M unit :=
  λ w, (Ok (), {| this_ := this_ w; events := events w ++ [e] |}).

Definition itkExceptionMacro {A} (e : Exception) : M A := λ w, (Raise e, w).

Definition when (b : bool) (m : M unit) : M unit :=
  if b then m else mret ().

(** [std::map::insert]: an existing key keeps its value. *)
Definition map_insert (k v : string) (m : gmap string string)
  : gmap string string :=
  match m !! k with
  | Some _ => m
  | None => <[k := v]> m
  end.

(** [std::string::back()] and [s[ s.size() - 1 ]]; [None] on the empty
    string, where C++ leaves the read undefined. *)
Definition back (s : string) : option Ascii.ascii :=
  last (String.list_ascii_of_string s).


(** The test of lines 102 and 140: [c != '/' || c != '\\'], with [c] the
    last character. *)
Definition lacks_trailing_separator (dir : string) : bool :=
  bool_decide (back dir ≠ Some "/"%char) || bool_decide (back dir ≠ Some "\"%char).

(** The condition shared by lines 65-69 and 76-80. *)
Definition wants_output_directory (this : t) : bool :=
  m_ComputeSpatialJacobian this ||
  m_ComputeDeterminantOfSpatialJacobian this ||
  m_ComputeDeformationField this ||
  negb (bool_decide (m_InputPointSetFileName this = "")) ||
  m_LogToFile this.

(** Lines 176-185: type information is overwritten in every map. *)
Definition set_type_information (env : Environment)
    (m : gmap string (list string)) : gmap string (list string) :=
  <["ResultImagePixelType" := [PixelTypeString env]]>
  (<["MovingImageDimension" := [InputImageDimensionString env]]>
  (<["MovingInternalImagePixelType" := [PixelTypeString env]]>
  (<["FixedImageDimension" := [InputImageDimensionString env]]>
  (<["FixedInternalImagePixelType" := [PixelTypeString env]]> m)))).

(** [GenerateData], lines 47-212. *)
Definition GenerateData (env : Environment) : M unit :=
  (* Assert that at least one output has been requested *)
  this ← get;
  when (IsEmpty (InputImage this) &&
        bool_decide (m_InputPointSetFileName this = "") &&
        negb (m_ComputeSpatialJacobian this) &&
        negb (m_ComputeDeterminantOfSpatialJacobian this) &&
        negb (m_ComputeDeformationField this))
    (itkExceptionMacro NothingRequested);;
  this ← get;
  when (wants_output_directory this && bool_decide (m_OutputDirectory this = ""))
    (modify (SetOutputDirectory "."));;
  (* Check if output directory exists *)
  this ← get;
  when (wants_output_directory this &&
        negb (FileExists env (m_OutputDirectory this)))
    (itkExceptionMacro (OutputDirectoryDoesNotExist (m_OutputDirectory this)));;
  (* Transformix uses "-def" for path to point sets AND as flag for
     writing deformation field *)
  when (m_ComputeDeformationField this &&
        negb (bool_decide (m_InputPointSetFileName this = "")))
    (itkExceptionMacro DeformationFieldAndPointSet);;
  (* Setup argument map *)
  let argumentMap : gmap string string := ∅ in
  argumentMap ←
    (if bool_decide (m_OutputDirectory this = "")
     then mret (map_insert "-out" "output_path_not_set" argumentMap)
     else
       when (lacks_trailing_separator (m_OutputDirectory this))
         (modify (SetOutputDirectory (m_OutputDirectory this +:+ "/")));;
       this ← get;
       mret (map_insert "-out" (m_OutputDirectory this) argumentMap));
  this ← get;
  let argumentMap :=
    if m_ComputeSpatialJacobian this
    then map_insert "-jacmat" "all" argumentMap else argumentMap in
  let argumentMap :=
    if m_ComputeDeterminantOfSpatialJacobian this
    then map_insert "-jac" "all" argumentMap else argumentMap in
  let argumentMap :=
    if m_ComputeDeformationField this
    then map_insert "-def" "all" argumentMap else argumentMap in
  let argumentMap :=
    if negb (bool_decide (m_InputPointSetFileName this = ""))
    then map_insert "-def" (m_InputPointSetFileName this) argumentMap
    else argumentMap in
  (* Setup xout *)
  logFileName ←
    (if m_LogToFile this then
       if bool_decide (m_LogFileName this = "")
       then mret (m_OutputDirectory this +:+ "transformix.log")
       else
         when (lacks_trailing_separator (m_OutputDirectory this))
           (modify (SetOutputDirectory (m_OutputDirectory this +:+ "/")));;
         this ← get;
         mret (m_OutputDirectory this +:+ m_LogFileName this)
     else mret "");
  this ← get;
  emit (XoutSetup logFileName (m_LogToFile this) (m_LogToConsole this));;
  when (negb (bool_decide
                (xoutSetup env logFileName (m_LogToFile this) (m_LogToConsole this) = 0)))
    (itkExceptionMacro ErrorWhileSettingUpXout);;
  (* Setup transformix for warping input image if given *)
  let inputImageContainer :=
    if negb (IsEmpty (InputImage this)) then Some [InputImage this] else None in
  (* Get ParameterMap *)
  let transformParameterMapVector := TransformParameterObject this in
  (* Assert user did not set empty parameter map *)
  when (bool_decide (length transformParameterMapVector = 0%nat))
    (itkExceptionMacro EmptyParameterMap);;
  let transformParameterMapVector :=
    set_type_information env <$> transformParameterMapVector in
  (* Run transformix *)
  emit TransformixRun;;
  match Run env inputImageContainer argumentMap transformParameterMapVector with
  | RunThrows what => itkExceptionMacro (ErrorsDuringRegistration what)
  | RunReturns isError resultImageContainer =>
      when (negb (bool_decide (isError = 0)))
        (itkExceptionMacro UncaughtErrorsDuringRegistration);;
      (* Save result image *)
      match resultImageContainer with
      | Some (image :: _) => modify (GraftOutput image)
      | _ => mret ()
      end;;
      (* Clean up *)
      emit UnloadComponents
  end.

(** Running the method on a filter object, from an empty event log. *)
Definition run (env : Environment) (this : t) : Result Exception unit * World :=
  GenerateData env {| this_ := this; events := [] |}.

(** [SetInputImage], [SetTransformParameterObject] and
    [GetTransformParameterObject], lines 214-236. *)
Definition SetInputImage (inputImage : Image) (this : t) : t :=
  {| InputImage := inputImage;
     TransformParameterObject := TransformParameterObject this;
     m_InputPointSetFileName := m_InputPointSetFileName this;
     m_ComputeSpatialJacobian := m_ComputeSpatialJacobian this;
     m_ComputeDeterminantOfSpatialJacobian :=
       m_ComputeDeterminantOfSpatialJacobian this;
     m_ComputeDeformationField := m_ComputeDeformationField this;
     m_OutputDirectory := m_OutputDirectory this;
     m_LogFileName := m_LogFileName this;
     m_LogToConsole := m_LogToConsole this;
     m_LogToFile := m_LogToFile this;
     ResultImage := ResultImage this |}.

Definition SetTransformParameterObject
    (parameterObject : list (gmap string (list string))) (this : t) : t :=
  {| InputImage := InputImage this;
     TransformParameterObject := parameterObject;
     m_InputPointSetFileName := m_InputPointSetFileName this;
     m_ComputeSpatialJacobian := m_ComputeSpatialJacobian this;
     m_ComputeDeterminantOfSpatialJacobian :=
       m_ComputeDeterminantOfSpatialJacobian this;
     m_ComputeDeformationField := m_ComputeDeformationField this;
     m_OutputDirectory := m_OutputDirectory this;
     m_LogFileName := m_LogFileName this;
     m_LogToConsole := m_LogToConsole this;
     m_LogToFile := m_LogToFile this;
     ResultImage := ResultImage this |}.

Definition GetTransformParameterObject (this : t)
  : list (gmap string (list string)) :=
  TransformParameterObject this.

End TransformixFilter.

(** ** Concrete collaborators, used to run the code on examples *)
Module Samples.

Import SplineKernelTransform.

(** A cast for unsigned decimal numerals ("12", "007"); anything else does
    not cast. *)
Definition digit (c : Ascii.ascii) : option Z :=
  let n := Z.of_N (Ascii.N_of_ascii c) in
  if bool_decide (48 ≤ n ≤ 57) then Some (n - 48) else None.

Fixpoint numeral (acc : Z) (cs : list Ascii.ascii) : option Z :=
  match cs with
  | [] => Some acc
  | c :: cs => d ← digit c; numeral (10 * acc + d) cs
  end.

Definition cast_uint (s : string) : option Z :=
  match String.list_ascii_of_string s with
  | [] => None
  | cs => numeral 0 cs
  end.

Definition cast_double (s : string) : option Q :=
  inject_Z <$> cast_uint s.

Definition configuration (policy : IrregularPolicy)
    (args : list (string * string)) (params : list (string * list string))
  : Configuration :=
  {| CommandLineArguments := list_to_map args;
     ParameterMap := list_to_map params;
     StringCast_double := cast_double;
     StringCast_uint := cast_uint;
     Irregular := policy |}.

(** Two landmark files in world coordinates; unit-spacing images at the
    origin; no initial transform; a base class that accepts anything. *)
Definition elastix (cfg : Configuration) : Elastix :=
  {| GetConfiguration := cfg;
     GetComponentLabel := "Transform";
     LandmarkFiles :=
       list_to_map
         [ ("fixed.txt", {| PointsAreIndices := false;
                            Points := [[0; 0; 0]; [1; 0; 0]; [0; 1; 0]; [0; 0; 1]]%Q |});
           ("moving.txt", {| PointsAreIndices := true;
                             Points := [[0; 0; 1]; [1; 0; 1]; [0; 1; 1]; [0; 0; 2]]%Q |}) ];
     MathRound := λ q, Qfloor (q + (1 # 2));
     FixedImage_TransformIndexToPhysicalPoint := fmap inject_Z;
     MovingImage_TransformIndexToPhysicalPoint := fmap inject_Z;
     GetUseComposition := false;
     GetInitialTransform := None;
     Superclass2_ReadFromFile := Ok |}.

(** A fit with the given kernel type and no moving landmarks. *)
Definition fit_with (kernelType : string) : Elastix :=
  elastix (configuration IrregularNotFound
             [("-fp", "fixed.txt")]
             [("SplineKernelType", [kernelType])]).

(** A transform parameter file declaring [n] parameters and supplying the
    given landmark coordinates. *)
Definition parameter_file (policy : IrregularPolicy) (kernelType n : string)
    (landmarks : list string) : Elastix :=
  elastix (configuration policy []
             [ ("SplineKernelType", [kernelType]);
               ("NumberOfParameters", [n]);
               ("FixedImageLandmarks", landmarks) ]).

End Samples.

Module FilterSamples.

Import TransformixFilter.

Definition image : Image := {| Size := [64; 64; 32] |}.

(** A world in which exactly the listed paths exist, the log set-up
    succeeds, and transformix ends as given. *)
Definition environment (paths : list string) (outcome : RunOutcome)
  : Environment :=
  {| FileSystem := list_to_set paths;
     xoutSetup := λ _ _ _, 0;
     Run := λ _ _ _, outcome;
     PixelTypeString := "float";
     InputImageDimensionString := "3" |}.

(** A filter with one (empty) parameter map, an input image, and the
    given point set file, deformation field flag, output directory and
    log file name (logging to file when a name is given). *)
Definition filter (points : string) (deformationField : bool)
    (directory logFileName : string) : t :=
  {| InputImage := image;
     TransformParameterObject := [∅];
     m_InputPointSetFileName := points;
     m_ComputeSpatialJacobian := false;
     m_ComputeDeterminantOfSpatialJacobian := false;
     m_ComputeDeformationField := deformationField;
     m_OutputDirectory := directory;
     m_LogFileName := logFileName;
     m_LogToConsole := false;
     m_LogToFile := negb (bool_decide (logFileName = ""));
     ResultImage := None |}.

Definition succeeds : RunOutcome := RunReturns 0 (Some [image]).

End FilterSamples.

(** * Properties of [SplineKernelTransform] *)
Module SplineKernelTransformSpec.

Import SplineKernelTransform Samples.

(** ** Family selection *)

(** The names that select a kernel class in three dimensions. *)
Definition selectable : list (string * KernelTransformClass) :=
  [ ("ThinPlateSpline", TPKernelTransformType);
    ("VolumeSpline", VKernelTransformType);
    ("ElasticBodySpline", EBKernelTransformType);
    ("ElasticBodyReciprocalSpline", EBRKernelTransformType) ].

(** The object a successful selection leaves behind. *)
Definition selected (name : string) (c : KernelTransformClass) (this : t) : t :=
  {| m_SplineKernelType := name;
     m_KernelTransform := New c;
     CurrentTransform := CurrentIsKernelTransform;
     InitialTransformParameters := InitialTransformParameters this |}.

(** The object a failed selection leaves behind: a fresh generic kernel
    transform that is not made the current transform. *)
Definition disabled (name : string) (this : t) : t :=
  {| m_SplineKernelType := name;
     m_KernelTransform := New KernelTransformType;
     CurrentTransform := detach this;
     InitialTransformParameters := InitialTransformParameters this |}.

Lemma SetKernelType_2D name this :
  SetKernelType 2 name this = (true, selected name TPRKernelTransformType this).
Proof. reflexivity. Qed.

Lemma SetKernelType_selectable dim name c this :
  dim ≠ 2%nat → (name, c) ∈ selectable →
  SetKernelType dim name this = (true, selected name c this).
Proof.
  intros Hdim Hin. unfold SetKernelType.
  destruct (decide (dim = 2%nat)) as [|_]; [done|].
  unfold selectable in Hin.
  repeat (apply elem_of_cons in Hin as [[= -> ->]|Hin]; [reflexivity|]).
  by apply elem_of_nil in Hin.
Qed.

Lemma SetKernelType_other dim name this :
  dim ≠ 2%nat → name ∉ selectable.*1 →
  SetKernelType dim name this = (false, disabled name this).
Proof.
  intros Hdim Hnot. unfold SetKernelType.
  destruct (decide (dim = 2%nat)) as [|_]; [done|].
  repeat (destruct (decide (name = _)) as [->|?];
          [exfalso; apply Hnot; cbn; set_solver|]).
  reflexivity.
Qed.

(** C1, as the source has it.  In two dimensions every name selects the
    R2LogR kernel and the call returns true.  In any other dimension the
    four names of [selectable] select their class and return true; every
    other name, "ThinPlateR2LogRSpline" among them, returns false and
    leaves a fresh generic kernel transform that is not installed as the
    current transform.  The requested name is recorded in all cases. *)
Theorem SetKernelType_dimension_gated (dim : nat) (name : string) (this : t) :
  (dim = 2%nat →
     SetKernelType dim name this = (true, selected name TPRKernelTransformType this))
  ∧ (dim ≠ 2%nat →
     (∀ c, (name, c) ∈ selectable →
           SetKernelType dim name this = (true, selected name c this))
     ∧ (name ∉ selectable.*1 →
           SetKernelType dim name this = (false, disabled name this)))
  ∧ "ThinPlateR2LogRSpline" ∉ selectable.*1.
Proof.
  split; [intros ->; apply SetKernelType_2D|].
  split.
  - intros Hdim. split.
    + intros c Hc. by apply SetKernelType_selectable.
    + intros Hn. by apply SetKernelType_other.
  - apply (bool_decide_unpack _). by vm_compute.
Qed.

(** C1 at concrete calls: a 2-D selection, a 3-D selection of a supported
    family, and a 3-D selection of an unsupported one. *)
Lemma SetKernelType_dimension_gated_witness :
  SetKernelType 2 "VolumeSpline" (Constructor 2)
  = (true, selected "VolumeSpline" TPRKernelTransformType (Constructor 2))
  ∧ SetKernelType 3 "VolumeSpline" (Constructor 3)
    = (true, selected "VolumeSpline" VKernelTransformType (Constructor 3))
  ∧ SetKernelType 3 "Bogus" (Constructor 3)
    = (false, disabled "Bogus" (Constructor 3)).
Proof.
  split; [|split].
  - apply (proj1 (SetKernelType_dimension_gated 2 "VolumeSpline" (Constructor 2))).
    reflexivity.
  - apply (proj1 (proj2 (SetKernelType_dimension_gated 3 "VolumeSpline"
                           (Constructor 3)))).
    + discriminate.
    + unfold selectable. apply list_elem_of_further, list_elem_of_here.
  - apply (proj1 (proj2 (SetKernelType_dimension_gated 3 "Bogus" (Constructor 3)))).
    + discriminate.
    + apply (bool_decide_unpack _). reflexivity.
Defined.

(** C1, refuted as stated: in three dimensions the family name
    "ThinPlateR2LogRSpline" is not recognised; the call returns false and
    leaves the generic kernel transform. *)
Lemma SetKernelType_3D_ThinPlateR2LogRSpline :
  SetKernelType 3 "ThinPlateR2LogRSpline" (Constructor 3)
  = (false,
     {| m_SplineKernelType := "ThinPlateR2LogRSpline";
        m_KernelTransform := New KernelTransformType;
        CurrentTransform := CurrentNull;
        InitialTransformParameters := None |}).
Proof. reflexivity. Qed.


(** ** Reading parameters *)

Lemma bind_Ok {E A B} (a : A) (k : A → Result E B) : (Ok a ≫= k) = k a.
Proof. reflexivity. Qed.

Lemma bind_Raise {E A B} (e : E) (k : A → Result E B) :
  (Raise e ≫= k) = Raise e.
Proof. reflexivity. Qed.

(** A parameter is given when the map holds at least one value for it. *)
Definition given (cfg : Configuration) (name : string) : Prop :=
  ∃ v vs, ParameterMap cfg !! name = Some (v :: vs).

Definition not_given (cfg : Configuration) (name : string) : Prop :=
  ParameterMap cfg !! name = None ∨ ParameterMap cfg !! name = Some [].

Lemma given_or_not cfg name : given cfg name ∨ not_given cfg name.
Proof.
  unfold given, not_given.
  destruct (ParameterMap cfg !! name) as [[|v vs]|]; eauto.
Qed.

Lemma ReadParameter_not_given {A} (cast : string → option A) cfg param name e :
  not_given cfg name → ReadParameter cast cfg param name e = Ok (false, param).
Proof. unfold ReadParameter. by intros [-> | ->]. Qed.

(** A string is read as it stands, so reading entry 0 of a string
    parameter never raises. *)
Lemma ReadParameter_string cfg param name v vs :
  ParameterMap cfg !! name = Some (v :: vs) →
  ReadParameter Some cfg param name 0 = Ok (true, v).
Proof. unfold ReadParameter. by intros ->. Qed.

Lemma ReadParameter_string_total cfg param name :
  ∃ found v, ReadParameter Some cfg param name 0 = Ok (found, v).
Proof.
  destruct (given_or_not cfg name) as [(v & vs & H)|H].
  - erewrite ReadParameter_string by done. eauto.
  - rewrite ReadParameter_not_given by done. eauto.
Qed.

Lemma ReadParameter_prefixed_string_total cfg param name prefix :
  ∃ found v, ReadParameter_prefixed Some cfg param name prefix 0 = Ok (found, v).
Proof.
  unfold ReadParameter_prefixed.
  destruct (ReadParameter_string_total cfg param name) as (f1 & v1 & ->).
  rewrite bind_Ok.
  destruct (ReadParameter_string_total cfg v1 (prefix +:+ name)) as (f2 & v2 & ->).
  rewrite bind_Ok. eauto.
Qed.

(** Unless the reader is one that raises on an irregular entry, no read
    raises. *)
Lemma irregular_total {A} cfg name (param : A) :
  Irregular cfg ≠ IrregularThrows →
  ∃ found, irregular cfg name param = Ok (found, param).
Proof. unfold irregular. destruct (Irregular cfg); [done|eauto..]. Qed.

Lemma ReadParameter_total {A} (cast : string → option A) cfg param name e :
  Irregular cfg ≠ IrregularThrows →
  ∃ found v, ReadParameter cast cfg param name e = Ok (found, v).
Proof.
  intros Hpol. unfold ReadParameter.
  destruct (ParameterMap cfg !! name) as [[|v vs]|]; [eauto| |eauto].
  destruct (_ ≫= cast); [eauto|].
  destruct (irregular_total cfg name param Hpol) as [f ->]. eauto.
Qed.

Lemma ReadParameter_prefixed_total {A} (cast : string → option A)
    cfg param name prefix e :
  Irregular cfg ≠ IrregularThrows →
  ∃ found v, ReadParameter_prefixed cast cfg param name prefix e = Ok (found, v).
Proof.
  intros Hpol. unfold ReadParameter_prefixed.
  destruct (ReadParameter_total cast cfg param name e Hpol) as (f1 & v1 & ->).
  rewrite bind_Ok.
  destruct (ReadParameter_total cast cfg v1 (prefix +:+ name) e Hpol)
    as (f2 & v2 & ->).
  rewrite bind_Ok. eauto.
Qed.


(** ** Fitting: [BeforeRegistration] *)

Lemma SetKernelType_true_inv dim name this :
  fst (SetKernelType dim name this) = true →
  ∃ c, SetKernelType dim name this = (true, selected name c this).
Proof.
  unfold SetKernelType.
  repeat (case_decide; [eauto|]). by intros [=].
Qed.

(** The file name [DetermineSourceLandmarks] reads: "-fp", or the
    deprecated "-ipp" when "-fp" is empty. *)
Definition source_file (cfg : Configuration) : string :=
  if decide (GetCommandLineArgument cfg "-fp" = "")
  then GetCommandLineArgument cfg "-ipp"
  else GetCommandLineArgument cfg "-fp".

(** Whether lines 187-193 set a Poisson ratio, by the spelling of the
    test in the source. *)
Definition poisson_test (kernelType : string) : bool :=
  bool_decide (kernelType = "ElasticBodySpline")
  || bool_decide (kernelType = "ElastixBodyReciprocalSpline").

(** The object a completed [BeforeRegistration] leaves behind. *)
Definition fitted (kernelType : string) (c : KernelTransformClass)
    (stiffness : Q) (poisson : option Q) (method : string)
    (source : PointSet) (target : TargetState) : t :=
  {| m_SplineKernelType := kernelType;
     m_KernelTransform :=
       {| KernelClass := c; Stiffness := Some stiffness; PoissonRatio := poisson;
          MatrixInversionMethod := Some method;
          FixedParameters := concat source; Target := target |};
     CurrentTransform := CurrentIsKernelTransform;
     InitialTransformParameters := Some target |}.

(** Case on the result [r] of a call inside [H : ... = Ok _]: a raise
    would have propagated, so the call returned. *)
Tactic Notation "returned" hyp(H) constr(r) "as" simple_intropattern(pat) :=
  let E := fresh "E" in
  destruct r as pat eqn:E;
  repeat first [rewrite bind_Ok in H | rewrite bind_Raise in H];
  [cbv beta iota in H | discriminate H].

(** Every completed fit has this shape: the kernel type that was read
    selected a class; a Poisson ratio was set exactly when the test of
    line 187 holds; the moving side is the identity exactly when no
    "-mp" file was named. *)
Lemma BeforeRegistration_Ok_inv dim elx this this' :
  BeforeRegistration dim elx this = Ok this' →
  ∃ found kernelType c stiffness poisson method source target,
    ReadParameter_prefixed Some (GetConfiguration elx) "ThinPlateSpline"
      "SplineKernelType" (GetComponentLabel elx) 0 = Ok (found, kernelType)
    ∧ SetKernelType dim kernelType this = (true, selected kernelType c this)
    ∧ this' = fitted kernelType c stiffness poisson method source target
    ∧ (is_Some poisson ↔ poisson_test kernelType = true)
    ∧ (target = TargetIdentity ↔
       GetCommandLineArgument (GetConfiguration elx) "-mp" = "").
Proof.
  unfold BeforeRegistration, DetermineSourceLandmarks, DetermineTargetLandmarks.
  fold (source_file (GetConfiguration elx)) (poisson_test).
  intros H.
  returned H (ReadParameter_prefixed Some (GetConfiguration elx) "ThinPlateSpline"
                "SplineKernelType" (GetComponentLabel elx) 0) as [[found kernelType]|?].
  destruct (SetKernelType dim kernelType this) as [known this1] eqn:Hset.
  destruct known; [|discriminate H]. cbn [negb] in H.
  destruct (SetKernelType_true_inv dim kernelType this) as [c Hc];
    [by rewrite Hset|].
  rewrite Hset in Hc. injection Hc as ->.
  returned H (ReadParameter_prefixed (StringCast_double (GetConfiguration elx))
                (GetConfiguration elx) 0%Q "SplineRelaxationFactor"
                (GetComponentLabel elx) 0) as [[? stiffness]|?].
  fold (poisson_test kernelType) in H.
  destruct (poisson_test kernelType) eqn:Hp;
    [ returned H (ReadParameter_prefixed (StringCast_double (GetConfiguration elx))
                    (GetConfiguration elx) (3 # 10)%Q "SplinePoissonRatio"
                    (GetComponentLabel elx) 0) as [[? poisson]|?]
    | rewrite bind_Ok in H ];
    ( returned H (ReadParameter Some (GetConfiguration elx) "SVD"
                    "TPSMatrixInversionMethod" 0) as [[? method]|?];
      returned H (ReadLandmarkFile elx (source_file (GetConfiguration elx)) true)
        as [source|?];
      case_decide as Hmp;
      [ | returned H (ReadLandmarkFile elx
                        (GetCommandLineArgument (GetConfiguration elx) "-mp") false)
            as [target|?] ];
      rewrite ?bind_Ok in H; cbv beta iota in H; injection H as <-;
      eexists found, kernelType, c, stiffness, _, method, source, _;
      (split; [reflexivity|]); (split; [done|]); (split; [reflexivity|]);
      cbn; rewrite ?Hp; split; split;
      first [done | by eauto | by intros [? [=]] | by intros [=]] ).
Qed.

Lemma BeforeRegistration_PoissonRatio dim elx this this' :
  BeforeRegistration dim elx this = Ok this' →
  is_Some (PoissonRatio (m_KernelTransform this'))
  ↔ poisson_test (m_SplineKernelType this') = true.
Proof.
  intros H. apply BeforeRegistration_Ok_inv in H
    as (? & ? & ? & ? & ? & ? & ? & ? & _ & _ & -> & Hp & _).
  exact Hp.
Qed.

(** C2 on the code.  The test of line 187 misspells the second family
    name ("ElastixBodyReciprocalSpline"), so no completed fit of the
    ElasticBodyReciprocalSpline family has a Poisson ratio set, while a fit
    of the ElasticBodySpline family has the default 0.3. *)
Theorem BeforeRegistration_ElasticBodyReciprocalSpline_no_PoissonRatio :
  (∀ dim elx this this',
     BeforeRegistration dim elx this = Ok this' →
     m_SplineKernelType this' = "ElasticBodyReciprocalSpline" →
     PoissonRatio (m_KernelTransform this') = None)
  ∧ (∃ this',
       BeforeRegistration 3 (fit_with "ElasticBodyReciprocalSpline") (Constructor 3)
       = Ok this'
       ∧ KernelClass (m_KernelTransform this') = EBRKernelTransformType
       ∧ PoissonRatio (m_KernelTransform this') = None)
  ∧ (∃ this',
       BeforeRegistration 3 (fit_with "ElasticBodySpline") (Constructor 3) = Ok this'
       ∧ KernelClass (m_KernelTransform this') = EBKernelTransformType
       ∧ PoissonRatio (m_KernelTransform this') = Some (3 # 10)%Q).
Proof.
  split; [|split].
  - intros dim elx this this' H Hname.
    apply BeforeRegistration_PoissonRatio in H. rewrite Hname in H.
    destruct (PoissonRatio (m_KernelTransform this')); [|done].
    destruct H as [H _]. by specialize (H (mk_is_Some _ _ eq_refl)).
  - eexists. split; [vm_compute; reflexivity|]. split; reflexivity.
  - eexists. split; [vm_compute; reflexivity|]. split; reflexivity.
Qed.

(** ** Fitting without moving landmarks *)

Lemma DetermineTargetLandmarks_unspecified elx this :
  GetCommandLineArgument (GetConfiguration elx) "-mp" = "" →
  DetermineTargetLandmarks elx this = Ok (false, this).
Proof. unfold DetermineTargetLandmarks. intros ->. by case_decide. Qed.

(** Whenever a fit completes with no "-mp" file named, the kernel
    transform has been set to the identity. *)
Lemma BeforeRegistration_identity dim elx this this' :
  GetCommandLineArgument (GetConfiguration elx) "-mp" = "" →
  BeforeRegistration dim elx this = Ok this' →
  Target (m_KernelTransform this') = TargetIdentity.
Proof.
  intros Hmp H. apply BeforeRegistration_Ok_inv in H
    as (? & ? & ? & ? & ? & ? & ? & ? & _ & _ & -> & _ & Ht).
  cbn. by apply Ht.
Qed.

(** C7.  With no "-mp" file named, [DetermineTargetLandmarks] returns
    false without raising and without touching the transform, and a fit
    whose other steps go through (the kernel type is supported, the
    parameter reader does not raise, the source landmark file can be read)
    completes with the kernel transform set to the identity; the identity
    is what is handed to the registration as initial parameters. *)
Theorem BeforeRegistration_without_moving_landmarks
    (dim : nat) (elx : Elastix) (this : t)
    (found : bool) (kernelType : string) (source : PointSet) :
  GetCommandLineArgument (GetConfiguration elx) "-mp" = "" →
  ReadParameter_prefixed Some (GetConfiguration elx) "ThinPlateSpline"
    "SplineKernelType" (GetComponentLabel elx) 0 = Ok (found, kernelType) →
  fst (SetKernelType dim kernelType this) = true →
  Irregular (GetConfiguration elx) ≠ IrregularThrows →
  ReadLandmarkFile elx (source_file (GetConfiguration elx)) true = Ok source →
  (∀ that, DetermineTargetLandmarks elx that = Ok (false, that))
  ∧ ∃ this',
      BeforeRegistration dim elx this = Ok this'
      ∧ Target (m_KernelTransform this') = TargetIdentity
      ∧ InitialTransformParameters this' = Some TargetIdentity
      ∧ FixedParameters (m_KernelTransform this') = concat source.
Proof.
  intros Hmp Hread Hknown Hpol Hsrc.
  split; [intros that; by apply DetermineTargetLandmarks_unspecified|].
  destruct (SetKernelType_true_inv _ _ _ Hknown) as [c Hc].
  unfold BeforeRegistration.
  rewrite Hread, bind_Ok. cbv beta iota. rewrite Hc. cbn [negb].
  destruct (ReadParameter_prefixed_total (StringCast_double (GetConfiguration elx))
              (GetConfiguration elx) 0%Q "SplineRelaxationFactor"
              (GetComponentLabel elx) 0 Hpol) as (? & stiffness & ->).
  rewrite bind_Ok. cbv beta iota.
  fold (poisson_test kernelType).
  destruct (poisson_test kernelType);
    [ destruct (ReadParameter_prefixed_total
                  (StringCast_double (GetConfiguration elx))
                  (GetConfiguration elx) (3 # 10)%Q "SplinePoissonRatio"
                  (GetComponentLabel elx) 0 Hpol) as (? & poisson & ->) | ];
    rewrite !bind_Ok; cbv beta iota;
    destruct (ReadParameter_string_total (GetConfiguration elx) "SVD"
                "TPSMatrixInversionMethod") as (? & method & ->);
    rewrite bind_Ok; cbv beta iota;
    unfold DetermineSourceLandmarks; fold (source_file (GetConfiguration elx));
    rewrite Hsrc, !bind_Ok;
    rewrite DetermineTargetLandmarks_unspecified by done;
    rewrite bind_Ok; cbv beta iota;
    eexists; (split; [reflexivity|]); by cbn.
Qed.

(** C7 at a concrete fit: four source landmarks, no "-mp". *)
Lemma BeforeRegistration_without_moving_landmarks_witness :
  (∀ that, DetermineTargetLandmarks (fit_with "ThinPlateSpline") that
           = Ok (false, that))
  ∧ ∃ this',
      BeforeRegistration 3 (fit_with "ThinPlateSpline") (Constructor 3) = Ok this'
      ∧ Target (m_KernelTransform this') = TargetIdentity
      ∧ InitialTransformParameters this' = Some TargetIdentity
      ∧ FixedParameters (m_KernelTransform this')
        = concat [[0; 0; 0]; [1; 0; 0]; [0; 1; 0]; [0; 0; 1]]%Q.
Proof.
  apply (BeforeRegistration_without_moving_landmarks
           3 (fit_with "ThinPlateSpline") (Constructor 3) true "ThinPlateSpline").
  - reflexivity.
  - reflexivity.
  - reflexivity.
  - discriminate.
  - reflexivity.
Defined.

(** ** Deserialisation: [ReadFromFile] *)

(** The call of the base class at the end of [ReadFromFile]. *)
Definition base_ReadFromFile (elx : Elastix) (this : t) : Result Exception t :=
  match Superclass2_ReadFromFile elx this with
  | Ok this => Ok this
  | Raise what => Raise (BaseClassError what)
  end.

(** The object handed to the base class: stiffness, Poisson ratio and
    fixed parameters set on the kernel transform that was selected. *)
Definition loaded (stiffness poisson : Q) (fixedParams : list Q) (this : t) : t :=
  on_kernel (SetFixedParameters fixedParams)
    (on_kernel (SetPoissonRatio poisson)
       (on_kernel (SetStiffness stiffness) this)).

(** The number of values supplied for "FixedImageLandmarks". *)
Definition supplied (cfg : Configuration) : Z :=
  Z.of_nat (length (default [] (ParameterMap cfg !! "FixedImageLandmarks"))).

(** "NumberOfParameters" is given and casts to [n]. *)
Definition declared (cfg : Configuration) (n : Z) : Prop :=
  ∃ s rest,
    ParameterMap cfg !! "NumberOfParameters" = Some (s :: rest)
    ∧ StringCast_uint cfg s = Some n ∧ 0 ≤ n < 2 ^ 32.

(** Step over the next call in a goal [raises (r ≫= k)]: if it raised we
    are done, otherwise name what it returned. *)
Tactic Notation "call" "as" simple_intropattern(pat) :=
  match goal with
  | |- raises (?r ≫= _) =>
      destruct r as [pat|?];
      [rewrite bind_Ok; cbv beta iota | rewrite bind_Raise; exact I]
  end.

Lemma ReadFromFile_kernel_type_not_given dim elx this :
  not_given (GetConfiguration elx) "SplineKernelType" →
  ReadFromFile dim elx this = Raise SplineKernelTypeNotGiven.
Proof.
  intros H. unfold ReadFromFile.
  by rewrite (ReadParameter_not_given _ _ _ _ _ H).
Qed.

Lemma ReadFromFile_landmarks_not_given dim elx this :
  not_given (GetConfiguration elx) "FixedImageLandmarks" →
  raises (ReadFromFile dim elx this).
Proof.
  intros H. unfold ReadFromFile.
  call as [skret kernelType]. destruct skret; [|exact I]. cbn [negb].
  call as [? stiffness]. call as [? poisson]. call as [? n].
  unfold ReadParameter_range. by destruct H as [-> | ->].
Qed.

Lemma wrap32_small z : 0 ≤ z < 2 ^ 32 → wrap32 z = z.
Proof. intros. unfold wrap32. by apply Z.mod_small. Qed.

Lemma wrap32_range z : 0 ≤ wrap32 z < 2 ^ 32.
Proof. unfold wrap32. by apply Z.mod_pos_bound. Qed.

(** The value [numberOfParameters] holds after its read is an unsigned
    integer. *)
Lemma ReadParameter_uint_range cfg found n :
  ReadParameter (λ s, wrap32 <$> StringCast_uint cfg s) cfg 0
    "NumberOfParameters" 0 = Ok (found, n) →
  0 ≤ n < 2 ^ 32.
Proof.
  unfold ReadParameter, irregular.
  destruct (ParameterMap cfg !! "NumberOfParameters") as [[|s rest]|];
    [intros ?; simplify_eq; lia| |intros ?; simplify_eq; lia].
  change ((s :: rest) !! Z.to_nat 0 ≫= _) with (wrap32 <$> StringCast_uint cfg s).
  destruct (StringCast_uint cfg s); cbn.
  - intros ?; simplify_eq. apply wrap32_range.
  - destruct (Irregular cfg); [done|intros ?; simplify_eq; lia..].
Qed.

Lemma ReadParameter_uint_declared cfg n :
  declared cfg n →
  ReadParameter (λ s, wrap32 <$> StringCast_uint cfg s) cfg 0
    "NumberOfParameters" 0 = Ok (true, n).
Proof.
  intros (s & rest & Hs & Hcast & Hn). unfold ReadParameter.
  rewrite Hs.
  change ((s :: rest) !! Z.to_nat 0 ≫= _) with (wrap32 <$> StringCast_uint cfg s).
  rewrite Hcast. cbn. by rewrite wrap32_small.
Qed.

(** Asking for entries beyond the supplied ones is irregular. *)
Lemma ReadParameter_range_beyond cfg param entry_nr_end :
  supplied cfg ≤ entry_nr_end →
  Irregular cfg ≠ IrregularKeepsDefault →
  ∀ r, ReadParameter_range (StringCast_double cfg) cfg param
         "FixedImageLandmarks" 0 entry_nr_end = Ok r → fst r = false.
Proof.
  unfold supplied, ReadParameter_range, irregular. intros Hend Hpol r.
  destruct (ParameterMap cfg !! "FixedImageLandmarks") as [[|v vs]|];
    [by intros [= <-]| |by intros [= <-]].
  cbn [default id] in Hend. rewrite bool_decide_eq_false_2 by lia.
  destruct (Irregular cfg); [done|by intros [= <-]|done].
Qed.

Lemma ReadFromFile_count_beyond dim elx this :
  Irregular (GetConfiguration elx) ≠ IrregularKeepsDefault →
  supplied (GetConfiguration elx) < 2 ^ 32 →
  (∀ found n,
     ReadParameter (λ s, wrap32 <$> StringCast_uint (GetConfiguration elx) s)
       (GetConfiguration elx) 0 "NumberOfParameters" 0 = Ok (found, n) →
     n = 0 ∨ supplied (GetConfiguration elx) < n) →
  raises (ReadFromFile dim elx this).
Proof.
  intros Hpol Hsup Hn. unfold ReadFromFile.
  call as [skret kernelType]. destruct skret; [|exact I]. cbn [negb].
  call as [? stiffness]. call as [? poisson].
  destruct (ReadParameter _ _ 0 "NumberOfParameters" 0) as [[found n]|?] eqn:En;
    [rewrite bind_Ok; cbv beta iota | rewrite bind_Raise; exact I].
  pose proof (ReadParameter_uint_range _ _ _ En) as Hrange.
  specialize (Hn _ _ eq_refl).
  assert (Hend : supplied (GetConfiguration elx) ≤ wrap32 (n - 1)).
  { assert (0 ≤ supplied (GetConfiguration elx)) by (unfold supplied; lia).
    destruct Hn as [-> | Hn]; [change (wrap32 (0 - 1)) with (2 ^ 32 - 1); lia|].
    rewrite wrap32_small by lia. lia. }
  destruct (ReadParameter_range _ _ _ "FixedImageLandmarks" 0 _) as [r|?] eqn:Er;
    [rewrite bind_Ok | rewrite bind_Raise; exact I].
  apply ReadParameter_range_beyond in Er; [|done..].
  destruct r as [retfil ?]. cbn in Er. by subst retfil.
Qed.

Lemma ReadFromFile_regular dim elx this
    name rest fr stiffness fp poisson n values xs :
  ParameterMap (GetConfiguration elx) !! "SplineKernelType" = Some (name :: rest) →
  ReadParameter_prefixed (StringCast_double (GetConfiguration elx))
    (GetConfiguration elx) 0%Q "SplineRelaxationFactor"
    (GetComponentLabel elx) 0 = Ok (fr, stiffness) →
  ReadParameter_prefixed (StringCast_double (GetConfiguration elx))
    (GetConfiguration elx) (3 # 10)%Q "SplinePoissonRatio"
    (GetComponentLabel elx) 0 = Ok (fp, poisson) →
  declared (GetConfiguration elx) n →
  ParameterMap (GetConfiguration elx) !! "FixedImageLandmarks" = Some values →
  1 ≤ n ≤ Z.of_nat (length values) →
  mapM (StringCast_double (GetConfiguration elx)) (take (Z.to_nat n) values) = Some xs →
  ReadFromFile dim elx this
  = base_ReadFromFile elx
      (loaded stiffness poisson xs (snd (SetKernelType dim name this))).
Proof.
  intros Hk Hr Hp Hn Hv Hle Hxs. unfold ReadFromFile.
  rewrite (ReadParameter_string _ _ _ _ _ Hk), bind_Ok. cbv beta iota. cbn [negb].
  rewrite Hr, bind_Ok. cbv beta iota.
  rewrite Hp, bind_Ok. cbv beta iota.
  rewrite (ReadParameter_uint_declared _ _ Hn), bind_Ok. cbv beta iota.
  destruct Hn as (_ & _ & _ & _ & Hn).
  unfold ReadParameter_range. rewrite Hv.
  rewrite wrap32_small by lia.
  destruct values as [|v vs]; [cbn in Hle; lia|].
  rewrite bool_decide_eq_true_2 by lia.
  replace (n - 1 - 0 + 1) with n by lia. rewrite drop_0, Hxs, bind_Ok.
  cbv beta iota. cbn [negb].
  apply length_mapM in Hxs. rewrite length_take in Hxs.
  assert (length xs = Z.to_nat n) as Hlen by (cbn [length] in *; lia).
  rewrite Hlen, drop_ge by (rewrite length_replicate; lia).
  rewrite app_nil_r, take_ge by lia. reflexivity.
Qed.

(** C3, as the source has it.  [ReadFromFile] raises when
    "SplineKernelType" is not given and when "FixedImageLandmarks" is not
    given.  The read of "NumberOfParameters" is not checked: a count that
    is not given stays 0, and the landmark read then asks for the entries
    0 .. 2^32-1.  So, with a parameter reader that does not report
    success for entries that are not supplied, a missing count, a count
    of 0 and a count above the number of supplied values all end in an
    error.  A count between 1 and the number of supplied values is
    accepted, whatever the reader: the first [n] values become the fixed
    parameters and the base class is entered. *)
Theorem ReadFromFile_errors (dim : nat) (elx : Elastix) (this : t) :
  (not_given (GetConfiguration elx) "SplineKernelType" →
     ReadFromFile dim elx this = Raise SplineKernelTypeNotGiven)
  ∧ (not_given (GetConfiguration elx) "FixedImageLandmarks" →
     raises (ReadFromFile dim elx this))
  ∧ (Irregular (GetConfiguration elx) ≠ IrregularKeepsDefault →
     supplied (GetConfiguration elx) < 2 ^ 32 →
     (not_given (GetConfiguration elx) "NumberOfParameters" →
        raises (ReadFromFile dim elx this))
     ∧ (∀ n, declared (GetConfiguration elx) n →
             n = 0 ∨ supplied (GetConfiguration elx) < n →
             raises (ReadFromFile dim elx this)))
  ∧ (∀ name rest fr stiffness fp poisson n values xs,
       ParameterMap (GetConfiguration elx) !! "SplineKernelType"
         = Some (name :: rest) →
       ReadParameter_prefixed (StringCast_double (GetConfiguration elx))
         (GetConfiguration elx) 0%Q "SplineRelaxationFactor"
         (GetComponentLabel elx) 0 = Ok (fr, stiffness) →
       ReadParameter_prefixed (StringCast_double (GetConfiguration elx))
         (GetConfiguration elx) (3 # 10)%Q "SplinePoissonRatio"
         (GetComponentLabel elx) 0 = Ok (fp, poisson) →
       declared (GetConfiguration elx) n →
       ParameterMap (GetConfiguration elx) !! "FixedImageLandmarks" = Some values →
       1 ≤ n ≤ Z.of_nat (length values) →
       mapM (StringCast_double (GetConfiguration elx))
         (take (Z.to_nat n) values) = Some xs →
       ReadFromFile dim elx this
       = base_ReadFromFile elx
           (loaded stiffness poisson xs (snd (SetKernelType dim name this)))).
Proof.
  split; [apply ReadFromFile_kernel_type_not_given|].
  split; [apply ReadFromFile_landmarks_not_given|].
  split.
  - intros Hpol Hsup. split.
    + intros Hn. apply ReadFromFile_count_beyond; [done..|].
      intros found n. rewrite ReadParameter_not_given by done.
      intros ?; simplify_eq. by left.
    + intros n Hn Hbeyond. apply ReadFromFile_count_beyond; [done..|].
      intros found n'. rewrite (ReadParameter_uint_declared _ _ Hn).
      by intros ?; simplify_eq.
  - intros *. apply ReadFromFile_regular.
Qed.

(** C3, refuted as stated: a parameter file that declares 3 parameters
    and supplies 6 landmark coordinates is read without any error, even by
    a reader that raises on every irregular entry; the first three values
    become the fixed parameters. *)
Lemma ReadFromFile_accepts_count_mismatch :
  ReadFromFile 3
    (parameter_file IrregularThrows "ThinPlateSpline" "3"
       ["1"; "2"; "3"; "4"; "5"; "6"])
    (Constructor 3)
  = Ok {| m_SplineKernelType := "ThinPlateSpline";
          m_KernelTransform :=
            {| KernelClass := TPKernelTransformType;
               Stiffness := Some 0%Q; PoissonRatio := Some (3 # 10)%Q;
               MatrixInversionMethod := None;
               FixedParameters := [1; 2; 3]%Q;
               Target := TargetUnset |};
          CurrentTransform := CurrentIsKernelTransform;
          InitialTransformParameters := None |}
  ∧ declared (GetConfiguration (parameter_file IrregularThrows "ThinPlateSpline" "3"
                                  ["1"; "2"; "3"; "4"; "5"; "6"])) 3
  ∧ supplied (GetConfiguration (parameter_file IrregularThrows "ThinPlateSpline" "3"
                                  ["1"; "2"; "3"; "4"; "5"; "6"])) = 6.
Proof.
  split; [by vm_compute|]. split; [|by vm_compute].
  exists "3", []. split; [by vm_compute|]. split; [by vm_compute|lia].
Qed.

(** C3 at concrete parameter files: no kernel type; no landmarks; no
    count; a count of 4 with 3 values; a count of 3 with 3 values. *)
Lemma ReadFromFile_errors_witness :
  ReadFromFile 3 (elastix (configuration IrregularThrows [] [])) (Constructor 3)
  = Raise SplineKernelTypeNotGiven
  ∧ raises (ReadFromFile 3
              (elastix (configuration IrregularNotFound []
                          [("SplineKernelType", ["VolumeSpline"]);
                           ("NumberOfParameters", ["3"])]))
              (Constructor 3))
  ∧ raises (ReadFromFile 3
              (elastix (configuration IrregularNotFound []
                          [("SplineKernelType", ["VolumeSpline"]);
                           ("FixedImageLandmarks", ["1"; "2"; "3"])]))
              (Constructor 3))
  ∧ raises (ReadFromFile 3
              (parameter_file IrregularThrows "VolumeSpline" "4" ["1"; "2"; "3"])
              (Constructor 3))
  ∧ ReadFromFile 3
      (parameter_file IrregularThrows "VolumeSpline" "3" ["1"; "2"; "3"])
      (Constructor 3)
    = base_ReadFromFile
        (parameter_file IrregularThrows "VolumeSpline" "3" ["1"; "2"; "3"])
        (loaded 0 (3 # 10) [1; 2; 3]%Q
           (snd (SetKernelType 3 "VolumeSpline" (Constructor 3)))).
Proof.
  split; [|split; [|split; [|split]]].
  - apply (proj1 (ReadFromFile_errors 3 _ (Constructor 3))).
    left. reflexivity.
  - apply (proj1 (proj2 (ReadFromFile_errors 3 _ (Constructor 3)))).
    left. reflexivity.
  - apply (proj1 (proj2 (proj2 (ReadFromFile_errors 3 _ (Constructor 3))))).
    + discriminate.
    + reflexivity.
    + left. reflexivity.
  - apply (proj1 (proj2 (proj2 (ReadFromFile_errors 3 _ (Constructor 3))))) with 4.
    + discriminate.
    + reflexivity.
    + exists "4", []. split; [reflexivity|]. split; [reflexivity|].
      split; [intros H; discriminate H|reflexivity].
    + right. reflexivity.
  - apply (proj2 (proj2 (proj2 (ReadFromFile_errors 3 _ (Constructor 3)))))
      with (rest := []) (fr := false) (fp := false) (n := 3)
           (values := ["1"; "2"; "3"]).
    + reflexivity.
    + reflexivity.
    + reflexivity.
    + exists "3", []. split; [reflexivity|]. split; [reflexivity|].
      split; [intros H; discriminate H|reflexivity].
    + reflexivity.
    + split; intros H; discriminate H.
    + reflexivity.
Defined.

(** ** An unrecognised kernel type in the parameter file *)

Lemma irregular_Raise_inv {A} cfg name (param : A) e :
  irregular cfg name param = Raise e → e = ParameterReaderError name.
Proof. unfold irregular. destruct (Irregular cfg); by intros [= <-]. Qed.

Lemma ReadParameter_Raise_inv {A} (cast : string → option A) cfg param name n e :
  ReadParameter cast cfg param name n = Raise e → e = ParameterReaderError name.
Proof.
  unfold ReadParameter.
  destruct (ParameterMap cfg !! name) as [[|v vs]|]; [done| |done].
  destruct (_ ≫= cast); [done|]. apply irregular_Raise_inv.
Qed.

Lemma ReadParameter_prefixed_Raise_inv {A} (cast : string → option A)
    cfg param name prefix n e :
  ReadParameter_prefixed cast cfg param name prefix n = Raise e →
  ∃ name', e = ParameterReaderError name'.
Proof.
  unfold ReadParameter_prefixed.
  destruct (ReadParameter cast cfg param name n) as [[f1 v1]|e1] eqn:E1.
  - rewrite bind_Ok. cbv beta iota.
    destruct (ReadParameter cast cfg v1 _ n) as [[f2 v2]|e2] eqn:E2; [done|].
    rewrite bind_Raise. intros [= <-]. apply ReadParameter_Raise_inv in E2. eauto.
  - rewrite bind_Raise. intros [= <-]. apply ReadParameter_Raise_inv in E1. eauto.
Qed.

Lemma ReadParameter_range_Raise_inv {A} (cast : string → option A)
    cfg param name b e ex :
  ReadParameter_range cast cfg param name b e = Raise ex →
  ex = ParameterReaderError name.
Proof.
  unfold ReadParameter_range.
  destruct (ParameterMap cfg !! name) as [[|v vs]|]; [done| |done].
  case_bool_decide; [destruct (mapM _ _); [done|]|]; apply irregular_Raise_inv.
Qed.

(** The raise sites of [ReadFromFile]: the kernel-type site fires exactly
    when the key is not given; every other raise comes from a later step. *)
Definition later_step (e : Exception) : Prop :=
  e = FixedImageLandmarksNotGiven
  ∨ (∃ name, e = ParameterReaderError name)
  ∨ (∃ what, e = BaseClassError what).

Lemma ReadFromFile_Raise_inv dim elx this e :
  ReadFromFile dim elx this = Raise e →
  (e = SplineKernelTypeNotGiven
   ∧ not_given (GetConfiguration elx) "SplineKernelType")
  ∨ (given (GetConfiguration elx) "SplineKernelType" ∧ later_step e).
Proof.
  unfold ReadFromFile, later_step.
  destruct (given_or_not (GetConfiguration elx) "SplineKernelType")
    as [(name & rest & Hk)|Hk].
  - intros H. right. split; [by exists name, rest|].
    rewrite (ReadParameter_string _ _ _ _ _ Hk), bind_Ok in H.
    cbv beta iota in H. cbn [negb] in H.
    destruct (ReadParameter_prefixed _ _ 0%Q _ _ _) as [[? stiffness]|?] eqn:E1;
      [rewrite bind_Ok in H; cbv beta iota in H
      |rewrite bind_Raise in H; injection H as <-;
       apply ReadParameter_prefixed_Raise_inv in E1; eauto].
    destruct (ReadParameter_prefixed _ _ (3 # 10)%Q _ _ _) as [[? poisson]|?] eqn:E2;
      [rewrite bind_Ok in H; cbv beta iota in H
      |rewrite bind_Raise in H; injection H as <-;
       apply ReadParameter_prefixed_Raise_inv in E2; eauto].
    destruct (ReadParameter _ _ 0 "NumberOfParameters" _) as [[? n]|?] eqn:E3;
      [rewrite bind_Ok in H; cbv beta iota in H
      |rewrite bind_Raise in H; injection H as <-;
       apply ReadParameter_Raise_inv in E3; eauto].
    destruct (ReadParameter_range _ _ _ _ _ _) as [[retfil landmarks]|?] eqn:E4;
      [rewrite bind_Ok in H; cbv beta iota in H
      |rewrite bind_Raise in H; injection H as <-;
       apply ReadParameter_range_Raise_inv in E4; eauto].
    destruct retfil; cbn [negb] in H; [|injection H as <-; eauto].
    destruct (Superclass2_ReadFromFile elx _); [done|].
    injection H as <-. eauto.
  - rewrite (ReadParameter_not_given _ _ _ _ _ Hk), bind_Ok. cbv beta iota.
    cbn [negb]. intros [= <-]. by left.
Qed.

(** C9.  [ReadFromFile] raises at the kernel-type step exactly when
    "SplineKernelType" is not given, and never raises for an unsupported
    kernel type.  With a name that selects no class (in a dimension other
    than two) the selection fails, its flag is dropped, and, when the
    remaining reads go through, the base class is entered with the fresh
    generic kernel transform carrying the stiffness, Poisson ratio and
    fixed parameters that were read. *)
Theorem ReadFromFile_unrecognized_kernel_type
    (dim : nat) (elx : Elastix) (this : t) :
  (ReadFromFile dim elx this = Raise SplineKernelTypeNotGiven
   ↔ not_given (GetConfiguration elx) "SplineKernelType")
  ∧ (∀ name, ReadFromFile dim elx this ≠ Raise (KernelTypeNotSupported name))
  ∧ (∀ name rest,
       dim ≠ 2%nat →
       ParameterMap (GetConfiguration elx) !! "SplineKernelType"
         = Some (name :: rest) →
       name ∉ selectable.*1 →
       SetKernelType dim name this = (false, disabled name this)
       ∧ (∀ e, ReadFromFile dim elx this = Raise e → later_step e)
       ∧ (∀ fr stiffness fp poisson n values xs,
            ReadParameter_prefixed (StringCast_double (GetConfiguration elx))
              (GetConfiguration elx) 0%Q "SplineRelaxationFactor"
              (GetComponentLabel elx) 0 = Ok (fr, stiffness) →
            ReadParameter_prefixed (StringCast_double (GetConfiguration elx))
              (GetConfiguration elx) (3 # 10)%Q "SplinePoissonRatio"
              (GetComponentLabel elx) 0 = Ok (fp, poisson) →
            declared (GetConfiguration elx) n →
            ParameterMap (GetConfiguration elx) !! "FixedImageLandmarks"
              = Some values →
            1 ≤ n ≤ Z.of_nat (length values) →
            mapM (StringCast_double (GetConfiguration elx))
              (take (Z.to_nat n) values) = Some xs →
            ReadFromFile dim elx this
            = base_ReadFromFile elx
                (loaded stiffness poisson xs (disabled name this)))).
Proof.
  split; [|split].
  - split; [|apply ReadFromFile_kernel_type_not_given].
    intros H. by apply ReadFromFile_Raise_inv in H as [[_ ?]|[_ [?|[[? ?]|[? ?]]]]].
  - intros name H.
    by apply ReadFromFile_Raise_inv in H as [[? _]|[_ [?|[[? ?]|[? ?]]]]].
  - intros name rest Hdim Hk Hname.
    pose proof (SetKernelType_other dim name this Hdim Hname) as Hset.
    split; [done|]. split.
    + intros e H. apply ReadFromFile_Raise_inv in H as [[_ Hn]|[_ ?]]; [|done].
      destruct Hn as [Hn|Hn]; congruence.
    + intros * Hr Hp Hn Hv Hle Hxs.
      erewrite ReadFromFile_regular by done. by rewrite Hset.
Qed.

(** C9 at a concrete parameter file naming the kernel type "Bogus". *)
Lemma ReadFromFile_unrecognized_kernel_type_witness :
  SetKernelType 3 "Bogus" (Constructor 3) = (false, disabled "Bogus" (Constructor 3))
  ∧ ReadFromFile 3
      (parameter_file IrregularThrows "Bogus" "3" ["1"; "2"; "3"]) (Constructor 3)
    = Ok {| m_SplineKernelType := "Bogus";
            m_KernelTransform :=
              {| KernelClass := KernelTransformType;
                 Stiffness := Some 0%Q; PoissonRatio := Some (3 # 10)%Q;
                 MatrixInversionMethod := None;
                 FixedParameters := [1; 2; 3]%Q;
                 Target := TargetUnset |};
            CurrentTransform := CurrentNull;
            InitialTransformParameters := None |}.
Proof.
  pose proof (proj2 (proj2 (ReadFromFile_unrecognized_kernel_type 3
    (parameter_file IrregularThrows "Bogus" "3" ["1"; "2"; "3"]) (Constructor 3))))
    as H.
  specialize (H "Bogus" []).
  destruct H as (Hset & _ & Hread).
  - discriminate.
  - reflexivity.
  - apply (bool_decide_unpack _). reflexivity.
  - split; [exact Hset|].
    rewrite (Hread false 0%Q false (3 # 10)%Q 3 ["1"; "2"; "3"] [1; 2; 3]%Q).
    + reflexivity.
    + reflexivity.
    + reflexivity.
    + exists "3", []. split; [reflexivity|].
      split; [reflexivity|]. split; [intros H; discriminate H|reflexivity].
    + reflexivity.
    + split; intros H; discriminate H.
    + reflexivity.
Defined.

(** ** Serialisation: the subscripts of [WriteToFile] *)

Lemma subscript_in_bounds a i x :
  0 ≤ i → a !! Z.to_nat i = Some x → subscript a i = Ok x.
Proof.
  intros Hi Hx. unfold subscript.
  apply lookup_lt_Some in Hx as Hlt.
  by rewrite bool_decide_eq_true_2, Hx by lia.
Qed.

(** The loop reads the elements [i .. bound-1] in order, provided they
    exist; the fuel is then not used up. *)
Lemma WriteToFile_loop_spec fuel : ∀ a i bound,
  0 ≤ i →
  bound ≤ Z.of_nat (length a) →
  bound < 2 ^ 32 →
  (Z.to_nat (bound - i) < fuel)%nat →
  WriteToFile_loop fuel a i bound
  = Ok (take (Z.to_nat (bound - i)) (drop (Z.to_nat i) a)).
Proof.
  induction fuel as [|fuel IH]; intros a i bound Hi Hbound Hsmall Hfuel; [lia|].
  cbn [WriteToFile_loop]. case_bool_decide as Hlt.
  - destruct (lookup_lt_is_Some_2 a (Z.to_nat i)) as [x Hx]; [lia|].
    rewrite (subscript_in_bounds _ _ _ Hi Hx), bind_Ok.
    rewrite wrap32_small by lia.
    rewrite IH, bind_Ok by lia.
    rewrite (drop_S _ _ _ Hx).
    replace (Z.to_nat (bound - i)) with (S (Z.to_nat (bound - (i + 1)))) by lia.
    replace (Z.to_nat (i + 1)) with (S (Z.to_nat i)) by lia.
    reflexivity.
  - replace (Z.to_nat (bound - i)) with 0%nat by lia. reflexivity.
Qed.

(** The lines [WriteToFile] appends to those of the base class. *)
Definition written (this : t) : list TransparLine :=
  [ EmptyLine;
    CommentLine "SplineKernelTransform specific";
    ParameterLine "SplineKernelType" [Quoted (m_SplineKernelType this)];
    ParameterLine "SplinePoissonRatio"
      [shown (PoissonRatio (m_KernelTransform this))];
    ParameterLine "SplineRelaxationFactor"
      [shown (Stiffness (m_KernelTransform this))];
    ParameterLine "FixedImageLandmarks"
      (Number <$> FixedParameters (m_KernelTransform this)) ].

Lemma WriteToFile_nonempty base this :
  Z.of_nat (length (FixedParameters (m_KernelTransform this))) < 2 ^ 32 →
  FixedParameters (m_KernelTransform this) ≠ [] →
  WriteToFile base this = Ok (base ++ written this).
Proof.
  intros Hsmall Hne. unfold WriteToFile, written, GetSize.
  set (a := FixedParameters (m_KernelTransform this)) in *.
  assert (0 < Z.of_nat (length a)) by (destruct a; [done|cbn; lia]).
  rewrite (wrap32_small (Z.of_nat (length a))) by lia.
  rewrite (wrap32_small (Z.of_nat (length a) - 1)) by lia.
  rewrite WriteToFile_loop_spec, bind_Ok by lia.
  destruct (lookup_lt_is_Some_2 a (Z.to_nat (Z.of_nat (length a) - 1)))
    as [x Hx]; [lia|].
  rewrite (subscript_in_bounds _ _ x) by (done || lia).
  rewrite bind_Ok, Z.sub_0_r, drop_0.
  rewrite <- (take_S_r _ _ _ Hx).
  rewrite take_ge by lia. reflexivity.
Qed.

Lemma WriteToFile_empty base this :
  FixedParameters (m_KernelTransform this) = [] →
  wrap32 (GetSize (FixedParameters (m_KernelTransform this)) - 1) = 4294967295
  ∧ subscript (FixedParameters (m_KernelTransform this))
      (wrap32 (GetSize (FixedParameters (m_KernelTransform this)) - 1))
    = Raise (SubscriptOutOfRange 4294967295 0)
  ∧ WriteToFile base this = Raise (SubscriptOutOfRange 0 0).
Proof. unfold WriteToFile. intros ->. by vm_compute. Qed.

(** C10.  [WriteToFile] subscripts the fixed parameters at
    [0 .. GetSize()-2] in its loop and at [GetSize()-1] after it, with no
    guard.  For an array that fits an unsigned size, all subscripts are in
    bounds exactly when the array is not empty, and then every fixed
    parameter is written once, in order.  For an empty array the unsigned
    [GetSize() - 1] wraps to 4294967295, the final subscript is out of
    bounds, and already the first turn of the loop reads element 0 of
    nothing. *)
Theorem WriteToFile_subscripts_in_bounds (base : list TransparLine) (this : t) :
  Z.of_nat (length (FixedParameters (m_KernelTransform this))) < 2 ^ 32 →
  (returns (WriteToFile base this) ↔ FixedParameters (m_KernelTransform this) ≠ [])
  ∧ (FixedParameters (m_KernelTransform this) ≠ [] →
     WriteToFile base this = Ok (base ++ written this))
  ∧ (FixedParameters (m_KernelTransform this) = [] →
     wrap32 (GetSize (FixedParameters (m_KernelTransform this)) - 1) = 4294967295
     ∧ subscript (FixedParameters (m_KernelTransform this))
         (wrap32 (GetSize (FixedParameters (m_KernelTransform this)) - 1))
       = Raise (SubscriptOutOfRange 4294967295 0)
     ∧ WriteToFile base this = Raise (SubscriptOutOfRange 0 0)).
Proof.
  intros Hsmall. split; [|split].
  - split.
    + intros Hret Hnil.
      destruct (WriteToFile_empty base this Hnil) as (_ & _ & H).
      by rewrite H in Hret.
    + intros Hne. by rewrite WriteToFile_nonempty.
  - by apply WriteToFile_nonempty.
  - apply WriteToFile_empty.
Qed.

(** C10 at a transform with three fixed parameters. *)
Lemma WriteToFile_subscripts_in_bounds_witness :
  let this := on_kernel (SetFixedParameters [1; 2; 3]%Q) (Constructor 3) in
  (returns (WriteToFile [] this) ↔ FixedParameters (m_KernelTransform this) ≠ [])
  ∧ (FixedParameters (m_KernelTransform this) ≠ [] →
     WriteToFile [] this = Ok ([] ++ written this))
  ∧ (FixedParameters (m_KernelTransform this) = [] →
     wrap32 (GetSize (FixedParameters (m_KernelTransform this)) - 1) = 4294967295
     ∧ subscript (FixedParameters (m_KernelTransform this))
         (wrap32 (GetSize (FixedParameters (m_KernelTransform this)) - 1))
       = Raise (SubscriptOutOfRange 4294967295 0)
     ∧ WriteToFile [] this = Raise (SubscriptOutOfRange 0 0)).
Proof.
  apply (WriteToFile_subscripts_in_bounds []
           (on_kernel (SetFixedParameters [1; 2; 3]%Q) (Constructor 3))).
  reflexivity.
Defined.

End SplineKernelTransformSpec.

(** * Properties of [TransformixFilter] *)
Module TransformixFilterSpec.

Import TransformixFilter FilterSamples.

(** ** Reasoning about the method body *)

(** From a world satisfying [P], the statement [m] either goes on with a
    value and world satisfying [Q], or raises an exception and leaves a
    world satisfying [R]. *)
Definition triple {A} (P : World → Prop) (m : M A)
    (Q : A → World → Prop) (R : Exception → World → Prop) : Prop :=
  ∀ w, P w →
    match m w with
    | (Ok a, w') => Q a w'
    | (Raise e, w') => R e w'
    end.

Section triple.
Context {A B : Type} (P : World → Prop) (R : Exception → World → Prop).

Lemma triple_ret (a : A) (Q : A → World → Prop) :
  (∀ w, P w → Q a w) → triple P (mret a) Q R.
Proof. intros H w Hw. by apply H. Qed.

Lemma triple_raise (e : Exception) (Q : A → World → Prop) :
  (∀ w, P w → R e w) → triple P (itkExceptionMacro e) Q R.
Proof. intros H w Hw. by apply H. Qed.

Lemma triple_bind (m : M A) (k : A → M B)
    (Q' : A → World → Prop) (Q : B → World → Prop) :
  triple P m Q' R → (∀ a, triple (Q' a) (k a) Q R) → triple P (m ≫= k) Q R.
Proof.
  intros Hm Hk w Hw. specialize (Hm w Hw).
  unfold mbind, M_bind. destruct (m w) as [[a|e] w']; [|done].
  by apply Hk.
Qed.

Lemma triple_get (Q : t → World → Prop) :
  (∀ w, P w → Q (this_ w) w) → triple P get Q R.
Proof. intros H w Hw. by apply H. Qed.

Lemma triple_modify (f : t → t) (Q : unit → World → Prop) :
  (∀ w, P w → Q () {| this_ := f (this_ w); events := events w |}) →
  triple P (modify f) Q R.
Proof. intros H w Hw. by apply H. Qed.

Lemma triple_emit (e : Event) (Q : unit → World → Prop) :
  (∀ w, P w → Q () {| this_ := this_ w; events := events w ++ [e] |}) →
  triple P (emit e) Q R.
Proof. intros H w Hw. by apply H. Qed.

Lemma triple_when (b : bool) (m : M unit) (Q : unit → World → Prop) :
  (b = true → triple P m Q R) → (b = false → ∀ w, P w → Q () w) →
  triple P (when b m) Q R.
Proof.
  intros Hm Hskip. destruct b; [by apply Hm|].
  intros w Hw. by apply Hskip.
Qed.
End triple.


(** Walk a method body statement by statement, carrying the invariant
    [I] between statements; [leaf] closes what each statement leaves to
    show. *)
Ltac walk I leaf :=
  cbv zeta;
  lazymatch goal with
  | |- triple _ (_ ≫= _) _ _ =>
      apply triple_bind with (Q' := λ _, I); [walk I leaf | intros ?; walk I leaf]
  | |- triple _ get _ _ => apply triple_get; leaf
  | |- triple _ (when _ _) _ _ =>
      apply triple_when; [intros ?; walk I leaf | intros ?; leaf]
  | |- triple _ (itkExceptionMacro _) _ _ => apply triple_raise; leaf
  | |- triple _ (modify _) _ _ => apply triple_modify; leaf
  | |- triple _ (emit _) _ _ => apply triple_emit; leaf
  | |- triple _ (mret _) _ _ => apply triple_ret; leaf
  | |- triple _ (if ?b then _ else _) _ _ => destruct b eqn:?; walk I leaf
  | |- triple _ (match ?x with _ => _ end) _ _ => destruct x eqn:?; walk I leaf
  end.

(** ** Cleaning up *)

(** [UnloadComponents] is the last call of a run that returns, and is not
    called at all by a run that raises. *)
Lemma GenerateData_UnloadComponents env :
  triple (λ w, UnloadComponents ∉ events w) (GenerateData env)
    (λ _ w, last (events w) = Some UnloadComponents)
    (λ _ w, UnloadComponents ∉ events w).
Proof.
  unfold GenerateData.
  walk (λ w : World, UnloadComponents ∉ events w)
       ltac:(intros w Hw; cbn;
             first [ exact Hw
                   | apply last_snoc
                   | apply not_elem_of_app; split; [exact Hw|];
                     apply not_elem_of_cons; split; [done|apply not_elem_of_nil] ]).
Qed.

Lemma run_UnloadComponents env this :
  match run env this with
  | (Ok _, w) => last (events w) = Some UnloadComponents
  | (Raise _, w) => UnloadComponents ∉ events w
  end.
Proof. apply (GenerateData_UnloadComponents env). apply not_elem_of_nil. Qed.

(** C8 on the code.  [UnloadComponents] is the last statement of
    [GenerateData] and nothing catches on the way to it: a run ends with
    it exactly when it returns.  When transformix throws, or returns a
    non-zero error code, the run raises and the components are never
    unloaded; the run that succeeds unloads them. *)
Theorem GenerateData_raises_without_UnloadComponents :
  (∀ env this e w,
     run env this = (Raise e, w) → UnloadComponents ∉ events w)
  ∧ run (environment [] (RunThrows "boom")) (filter "" false "" "")
    = (Raise (ErrorsDuringRegistration "boom"),
       {| this_ := filter "" false "" "";
          events := [XoutSetup "" false false; TransformixRun] |})
  ∧ run (environment [] (RunReturns 1 None)) (filter "" false "" "")
    = (Raise UncaughtErrorsDuringRegistration,
       {| this_ := filter "" false "" "";
          events := [XoutSetup "" false false; TransformixRun] |})
  ∧ run (environment [] succeeds) (filter "" false "" "")
    = (Ok (),
       {| this_ := GraftOutput image (filter "" false "" "");
          events := [XoutSetup "" false false; TransformixRun; UnloadComponents] |}).
Proof.
  split; [|by vm_compute].
  intros env this e w H. pose proof (run_UnloadComponents env this) as Hrun.
  by rewrite H in Hrun.
Qed.

(** ** Validating the request *)

(** The test of lines 53-57. *)
Definition nothing_requested (this : t) : bool :=
  IsEmpty (InputImage this) &&
  bool_decide (m_InputPointSetFileName this = "") &&
  negb (m_ComputeSpatialJacobian this) &&
  negb (m_ComputeDeterminantOfSpatialJacobian this) &&
  negb (m_ComputeDeformationField this).

(** The directory that lines 76-84 look for: "." when none is set. *)
Definition resolved_directory (this : t) : string :=
  if bool_decide (m_OutputDirectory this = "") then "." else m_OutputDirectory this.

(** As [walk], but remembering after [get] that the value read is the
    current object. *)
Ltac walk_this I leaf :=
  cbv zeta;
  lazymatch goal with
  | |- triple _ (get ≫= _) _ _ =>
      apply triple_bind with (Q' := λ a w, a = this_ w ∧ I w);
      [apply triple_get; leaf | intros ?; walk_this I leaf]
  | |- triple _ (_ ≫= _) _ _ =>
      apply triple_bind with (Q' := λ _, I);
      [walk_this I leaf | intros ?; walk_this I leaf]
  | |- triple _ get _ _ => apply triple_get; leaf
  | |- triple _ (when _ _) _ _ =>
      apply triple_when; [intros ?; walk_this I leaf | intros ?; leaf]
  | |- triple _ (itkExceptionMacro _) _ _ => apply triple_raise; leaf
  | |- triple _ (modify _) _ _ => apply triple_modify; leaf
  | |- triple _ (emit _) _ _ => apply triple_emit; leaf
  | |- triple _ (mret _) _ _ => apply triple_ret; leaf
  | |- triple _ (if ?b then _ else _) _ _ => destruct b eqn:?; walk_this I leaf
  | |- triple _ (match ?x with _ => _ end) _ _ => destruct x eqn:?; walk_this I leaf
  end.

(** When something is requested, no step of the run raises the
    nothing-requested error. *)
Lemma GenerateData_something_requested env :
  triple (λ w, nothing_requested (this_ w) = false) (GenerateData env)
    (λ _ _, True) (λ e _, e ≠ NothingRequested).
Proof.
  unfold GenerateData.
  walk_this (λ w : World, nothing_requested (this_ w) = false)
    ltac:(intros w Hw; unfold nothing_requested in *; cbn in *;
          first [ done | by destruct Hw
                | destruct Hw as [-> Hw]; exfalso; congruence ]).
Qed.

(** Running the first statements of a body. *)
Lemma run_bind {A B} (m : M A) (k : A → M B) w :
  (m ≫= k) w
  = match m w with
    | (Ok a, w') => k a w'
    | (Raise e, w') => (Raise e, w')
    end.
Proof. reflexivity. Qed.

Lemma GenerateData_nothing_requested env this :
  nothing_requested this = true →
  run env this = (Raise NothingRequested, {| this_ := this; events := [] |}).
Proof.
  intros H. unfold run, GenerateData.
  rewrite run_bind. cbn [get this_]. rewrite run_bind.
  fold (nothing_requested this). rewrite H. reflexivity.
Qed.

Lemma GenerateData_conflict env this :
  m_ComputeDeformationField this = true →
  m_InputPointSetFileName this ≠ "" →
  FileExists env (resolved_directory this) = true →
  fst (run env this) = Raise DeformationFieldAndPointSet.
Proof.
  intros Hdef Hpoints Hdir.
  assert (nothing_requested this = false) as Hreq.
  { unfold nothing_requested. by rewrite Hdef, !andb_false_r. }
  assert (wants_output_directory this = true) as Hwants.
  { unfold wants_output_directory. by rewrite Hdef, !orb_true_r. }
  unfold run, GenerateData.
  rewrite run_bind. cbn [get this_]. rewrite run_bind.
  fold (nothing_requested this). rewrite Hreq. cbn [when mret M_ret].
  rewrite run_bind. cbn [get this_]. rewrite run_bind, Hwants.
  unfold resolved_directory in Hdir. cbn [andb].
  destruct (bool_decide (m_OutputDirectory this = "")) eqn:Hempty;
    cbn [when modify mret M_ret this_ events];
    rewrite run_bind; cbn [get this_]; rewrite run_bind;
    [ change (wants_output_directory (SetOutputDirectory "." this))
        with (wants_output_directory this);
      change (m_OutputDirectory (SetOutputDirectory "." this)) with "."
    | ];
    rewrite Hwants, Hdir; cbn [andb negb when mret M_ret];
    rewrite run_bind;
    [ change (m_ComputeDeformationField (SetOutputDirectory "." this))
        with (m_ComputeDeformationField this);
      change (m_InputPointSetFileName (SetOutputDirectory "." this))
        with (m_InputPointSetFileName this)
    | ];
    rewrite Hdef, (bool_decide_eq_false_2 _ Hpoints); reflexivity.
Qed.

Lemma GenerateData_directory_missing env this :
  nothing_requested this = false →
  wants_output_directory this = true →
  FileExists env (resolved_directory this) = false →
  fst (run env this)
  = Raise (OutputDirectoryDoesNotExist (resolved_directory this)).
Proof.
  intros Hreq Hwants Hdir.
  unfold run, GenerateData.
  rewrite run_bind. cbn [get this_]. rewrite run_bind.
  fold (nothing_requested this). rewrite Hreq. cbn [when mret M_ret].
  rewrite run_bind. cbn [get this_]. rewrite run_bind, Hwants.
  unfold resolved_directory in *. cbn [andb].
  destruct (bool_decide (m_OutputDirectory this = "")) eqn:Hempty;
    cbn [when modify mret M_ret this_ events];
    rewrite run_bind; cbn [get this_]; rewrite run_bind;
    [ change (wants_output_directory (SetOutputDirectory "." this))
        with (wants_output_directory this);
      change (m_OutputDirectory (SetOutputDirectory "." this)) with "."
    | ];
    rewrite Hwants, Hdir; reflexivity.
Qed.

Lemma nothing_requested_true this :
  nothing_requested this = true
  ↔ IsEmpty (InputImage this) = true
    ∧ m_InputPointSetFileName this = ""
    ∧ m_ComputeSpatialJacobian this = false
    ∧ m_ComputeDeterminantOfSpatialJacobian this = false
    ∧ m_ComputeDeformationField this = false.
Proof.
  unfold nothing_requested.
  rewrite !andb_true_iff, !negb_true_iff, bool_decide_eq_true. tauto.
Qed.

(** C5, as the source has it.  The nothing-requested error is raised
    exactly when the input image is empty, no point set file is named and
    none of the three flags is set.  With the deformation field flag on
    and a point set file named, the run raises the conflict error when the
    output directory ("." if none is set) exists; when it does not exist,
    the check of lines 76-84 comes first and the run raises the
    missing-directory error instead. *)
Theorem GenerateData_request_errors (env : Environment) (this : t) :
  (fst (run env this) = Raise NothingRequested
   ↔ IsEmpty (InputImage this) = true
     ∧ m_InputPointSetFileName this = ""
     ∧ m_ComputeSpatialJacobian this = false
     ∧ m_ComputeDeterminantOfSpatialJacobian this = false
     ∧ m_ComputeDeformationField this = false)
  ∧ (m_ComputeDeformationField this = true →
     m_InputPointSetFileName this ≠ "" →
     (FileExists env (resolved_directory this) = true →
        fst (run env this) = Raise DeformationFieldAndPointSet)
     ∧ (FileExists env (resolved_directory this) = false →
        fst (run env this)
        = Raise (OutputDirectoryDoesNotExist (resolved_directory this)))).
Proof.
  split.
  - rewrite <- nothing_requested_true. split.
    + intros H. destruct (nothing_requested this) eqn:Hreq; [done|].
      pose proof (GenerateData_something_requested env
                    {| this_ := this; events := [] |} Hreq) as Hrun.
      fold (run env this) in Hrun.
      destruct (run env this) as [[?|e] w]; [done|].
      cbn in H. by injection H as ->.
    + intros H. by rewrite GenerateData_nothing_requested.
  - intros Hdef Hpoints. split.
    + by apply GenerateData_conflict.
    + apply GenerateData_directory_missing.
      * unfold nothing_requested. by rewrite Hdef, !andb_false_r.
      * unfold wants_output_directory. by rewrite Hdef, !orb_true_r.
Qed.

(** C5, refuted as stated: with the deformation field flag on, a point
    set file named and an output directory that does not exist, the run
    raises the missing-directory error, not the conflict error. *)
Lemma GenerateData_conflict_behind_directory_check :
  m_ComputeDeformationField (filter "points.txt" true "missing" "") = true
  ∧ m_InputPointSetFileName (filter "points.txt" true "missing" "") = "points.txt"
  ∧ fst (run (environment [] succeeds) (filter "points.txt" true "missing" ""))
    = Raise (OutputDirectoryDoesNotExist "missing").
Proof. by vm_compute. Qed.

(** C5 at concrete requests: a freshly constructed filter; a conflicting
    request with an existing and with a missing output directory. *)
Lemma GenerateData_request_errors_witness :
  fst (run (environment [] succeeds) (Constructor 3 [∅])) = Raise NothingRequested
  ∧ fst (run (environment ["out"] succeeds) (filter "points.txt" true "out" ""))
    = Raise DeformationFieldAndPointSet
  ∧ fst (run (environment [] succeeds) (filter "points.txt" true "" ""))
    = Raise (OutputDirectoryDoesNotExist ".").
Proof.
  split; [|split].
  - apply (proj1 (GenerateData_request_errors
                    (environment [] succeeds) (Constructor 3 [∅]))).
    repeat split.
  - apply (proj2 (GenerateData_request_errors
                    (environment ["out"] succeeds)
                    (filter "points.txt" true "out" ""))).
    + reflexivity.
    + discriminate.
    + reflexivity.
  - apply (proj2 (GenerateData_request_errors
                    (environment [] succeeds)
                    (filter "points.txt" true "" ""))).
    + reflexivity.
    + discriminate.
    + reflexivity.
Defined.

(** ** Normalising the output directory *)

(** The guard of lines 102 and 140 holds for every directory: no
    character is both a slash and a backslash. *)
Lemma lacks_trailing_separator_always dir : lacks_trailing_separator dir = true.
Proof.
  unfold lacks_trailing_separator.
  destruct (decide (back dir = Some "/"%char)) as [->|Hne].
  - apply orb_true_iff. right. apply bool_decide_eq_true_2. by intros [=].
  - apply orb_true_iff. left. by apply bool_decide_eq_true_2.
Qed.

(** C6 on the code.  The guard is always true, so a separator is
    appended whether or not one is there: "out/" becomes "out//", and when
    a log file name is given the second block appends once more, so "out"
    becomes "out//" as well and the log file is "out//run.log". *)
Theorem GenerateData_appends_separator_unconditionally :
  (∀ dir, lacks_trailing_separator dir = true)
  ∧ run (environment [] succeeds) (filter "" false "out/" "")
    = (Ok (),
       {| this_ := GraftOutput image (filter "" false "out//" "");
          events := [XoutSetup "" false false; TransformixRun; UnloadComponents] |})
  ∧ run (environment ["out"] succeeds) (filter "" false "out" "run.log")
    = (Ok (),
       {| this_ := GraftOutput image (filter "" false "out//" "run.log");
          events := [XoutSetup "out//run.log" true false; TransformixRun;
                     UnloadComponents] |}).
Proof.
  split; [apply lacks_trailing_separator_always|]. by vm_compute.
Qed.

End TransformixFilterSpec.

(** * Further properties of [SplineKernelTransform] *)
Module SplineKernelTransformExtra.

Import SplineKernelTransform Samples SplineKernelTransformSpec.

(** ** The command line *)

(** The file [BeforeAll] announces on its "-fp" line: "-ipp" whenever it
    is given. *)
Definition announced_file (cfg : Configuration) : string :=
  if bool_decide (GetCommandLineArgument cfg "-ipp" = "")
  then GetCommandLineArgument cfg "-fp"
  else GetCommandLineArgument cfg "-ipp".

Lemma BeforeAll_not_given className cfg :
  GetCommandLineArgument cfg "-fp" = "" →
  GetCommandLineArgument cfg "-ipp" = "" →
  BeforeAll className cfg
  = (1, [(xout_error,
          "ERROR: -fp should be given for " +:+ className +:+
          " in order to define the fixed image (source) landmarks.")]).
Proof. unfold BeforeAll. by intros -> ->. Qed.

Lemma BeforeAll_given className cfg :
  ¬ (GetCommandLineArgument cfg "-fp" = ""
     ∧ GetCommandLineArgument cfg "-ipp" = "") →
  BeforeAll className cfg
  = (0,
     (if bool_decide (GetCommandLineArgument cfg "-ipp" = "") then []
      else [(xout_warning, "WARNING: -ipp is deprecated, use -fp instead.")])
     ++ [ (elxout, "-fp       " +:+ announced_file cfg);
          (elxout,
           "-mp       " +:+
           (if bool_decide (GetCommandLineArgument cfg "-mp" = "")
            then "unspecified, assumed equal to -fp"
            else GetCommandLineArgument cfg "-mp")) ]).
Proof.
  intros Hgiven. unfold BeforeAll, announced_file.
  destruct (bool_decide (GetCommandLineArgument cfg "-ipp" = "")) eqn:Hipp;
    cbn [negb andb].
  - apply bool_decide_eq_true in Hipp.
    rewrite bool_decide_eq_false_2 by tauto.
    by destruct (bool_decide (GetCommandLineArgument cfg "-mp" = "")).
  - by destruct (bool_decide (GetCommandLineArgument cfg "-mp" = "")).
Qed.

(** X1.  [BeforeAll] returns 1 exactly when neither "-fp" nor "-ipp" is
    given, and 0 otherwise; with 1 it has written one error line and
    nothing else.  When it returns 0, the file name that
    [DetermineSourceLandmarks] goes on to read is not empty. *)
Theorem BeforeAll_return_code (className : string) (cfg : Configuration) :
  (fst (BeforeAll className cfg) = 1
   ↔ GetCommandLineArgument cfg "-fp" = ""
     ∧ GetCommandLineArgument cfg "-ipp" = "")
  ∧ (fst (BeforeAll className cfg) = 1 ∨ fst (BeforeAll className cfg) = 0)
  ∧ (fst (BeforeAll className cfg) = 1 →
     ∃ text, snd (BeforeAll className cfg) = [(xout_error, text)])
  ∧ (fst (BeforeAll className cfg) = 0 → source_file cfg ≠ "").
Proof.
  destruct (decide (GetCommandLineArgument cfg "-fp" = ""
                    ∧ GetCommandLineArgument cfg "-ipp" = "")) as [[Hfp Hipp]|Hne].
  - rewrite (BeforeAll_not_given _ _ Hfp Hipp). cbn [fst snd].
    repeat split; eauto; done.
  - rewrite (BeforeAll_given _ _ Hne). cbn [fst snd].
    split; [split; [done|tauto]|]. split; [by right|]. split; [done|].
    intros _. unfold source_file. case_decide; [|done]. tauto.
Qed.

(** X1 at a command line with "-fp" only. *)
Lemma BeforeAll_return_code_witness :
  fst (BeforeAll "SplineKernelTransform"
         (configuration IrregularThrows [("-fp", "fixed.txt")] [])) = 0
  ∧ source_file (configuration IrregularThrows [("-fp", "fixed.txt")] []) ≠ "".
Proof.
  pose proof (BeforeAll_return_code "SplineKernelTransform"
                (configuration IrregularThrows [("-fp", "fixed.txt")] []))
    as (_ & _ & _ & H).
  split; [reflexivity|]. apply H. reflexivity.
Defined.

(** X2.  On its "-fp" line [BeforeAll] announces the "-ipp" file whenever
    "-ipp" is given, while [DetermineSourceLandmarks] reads the "-fp" file
    whenever "-fp" is given: the announced file is the one that is read
    unless both arguments are given and differ, and then the announced
    one is "-ipp" and the one read is "-fp". *)
Theorem BeforeAll_announces_ipp_DetermineSourceLandmarks_reads_fp
    (className : string) (elx : Elastix) (this : t) :
  (fst (BeforeAll className (GetConfiguration elx)) = 0 →
   (elxout, "-fp       " +:+ announced_file (GetConfiguration elx))
   ∈ snd (BeforeAll className (GetConfiguration elx)))
  ∧ DetermineSourceLandmarks elx this
    = (ReadLandmarkFile elx (source_file (GetConfiguration elx)) true
       ≫= λ pts, Ok (on_kernel (SetSourceLandmarks pts) this))
  ∧ (announced_file (GetConfiguration elx) = source_file (GetConfiguration elx)
     ↔ GetCommandLineArgument (GetConfiguration elx) "-ipp" = ""
       ∨ GetCommandLineArgument (GetConfiguration elx) "-fp" = ""
       ∨ GetCommandLineArgument (GetConfiguration elx) "-ipp"
         = GetCommandLineArgument (GetConfiguration elx) "-fp")
  ∧ (GetCommandLineArgument (GetConfiguration elx) "-ipp" ≠ "" →
     GetCommandLineArgument (GetConfiguration elx) "-fp" ≠ "" →
     announced_file (GetConfiguration elx)
     = GetCommandLineArgument (GetConfiguration elx) "-ipp"
     ∧ source_file (GetConfiguration elx)
       = GetCommandLineArgument (GetConfiguration elx) "-fp").
Proof.
  set (cfg := GetConfiguration elx).
  split; [|split; [reflexivity|]].
  - intros Hzero.
    destruct (decide (GetCommandLineArgument cfg "-fp" = ""
                      ∧ GetCommandLineArgument cfg "-ipp" = "")) as [[Hfp Hipp]|Hne].
    + by rewrite (BeforeAll_not_given _ _ Hfp Hipp) in Hzero.
    + rewrite (BeforeAll_given _ _ Hne). cbn [snd].
      apply elem_of_app. right. apply list_elem_of_here.
  - unfold announced_file, source_file.
    destruct (decide (GetCommandLineArgument cfg "-fp" = "")) as [Hfp|Hfp],
             (bool_decide (GetCommandLineArgument cfg "-ipp" = "")) eqn:Hipp;
      try apply bool_decide_eq_true in Hipp;
      try apply bool_decide_eq_false in Hipp;
      (split; [split; [intros H; try tauto; try (by right; right); try congruence
                      |intros [?|[?|?]]; congruence]
              |intros ? ?; try done]).
    all: try (right; left; done).
    all: try tauto.
Qed.

(** X2 at a command line that gives both arguments. *)
Lemma BeforeAll_announces_ipp_DetermineSourceLandmarks_reads_fp_witness :
  (elxout, "-fp       old.txt")
  ∈ snd (BeforeAll "SplineKernelTransform"
           (configuration IrregularThrows
              [("-ipp", "old.txt"); ("-fp", "fixed.txt")] []))
  ∧ source_file (configuration IrregularThrows
                   [("-ipp", "old.txt"); ("-fp", "fixed.txt")] [])
    = "fixed.txt".
Proof.
  pose proof (BeforeAll_announces_ipp_DetermineSourceLandmarks_reads_fp
                "SplineKernelTransform"
                (elastix (configuration IrregularThrows
                            [("-ipp", "old.txt"); ("-fp", "fixed.txt")] []))
                (Constructor 3)) as (Hlog & _ & _ & Hboth).
  split.
  - apply Hlog. reflexivity.
  - apply Hboth; discriminate.
Defined.

(** ** Reading landmark files *)

(** X3.  [ReadLandmarkFile] raises exactly when the reader cannot open
    the file, and then with the landmark-file error for that file name;
    otherwise it returns as many points as the file holds, whatever
    conversion is applied to them. *)
Theorem ReadLandmarkFile_cardinality
    (elx : Elastix) (filename : string) (landmarksInFixedImage : bool) :
  (raises (ReadLandmarkFile elx filename landmarksInFixedImage)
   ↔ LandmarkFiles elx !! filename = None)
  ∧ (∀ e, ReadLandmarkFile elx filename landmarksInFixedImage = Raise e →
          e = LandmarkFileError filename)
  ∧ (∀ file, LandmarkFiles elx !! filename = Some file →
       ∃ pts, ReadLandmarkFile elx filename landmarksInFixedImage = Ok pts
              ∧ length pts = length (Points file)).
Proof.
  unfold ReadLandmarkFile.
  destruct (LandmarkFiles elx !! filename) as [file|]; cbn.
  - split; [split; [done|by intros [=]]|]. split; [done|].
    intros ? [= <-]. eexists. split; [reflexivity|].
    destruct (GetInitialTransform elx), (PointsAreIndices file),
             (landmarksInFixedImage && GetUseComposition elx);
      by rewrite ?length_fmap.
  - split; [done|]. split; [by intros e [= <-]|done].
Qed.

(** X3 at the sample file of four index-space moving landmarks. *)
Lemma ReadLandmarkFile_cardinality_witness :
  ∃ pts, ReadLandmarkFile (fit_with "ThinPlateSpline") "moving.txt" false = Ok pts
         ∧ length pts = 4%nat.
Proof.
  destruct (ReadLandmarkFile_cardinality (fit_with "ThinPlateSpline")
              "moving.txt" false) as (_ & _ & H).
  exact (H {| PointsAreIndices := true;
              Points := [[0; 0; 1]; [1; 0; 1]; [0; 1; 1]; [0; 0; 2]]%Q |}
           eq_refl).
Defined.




(** ** Selecting the kernel *)

(** X5.  [SetKernelType] always installs a freshly created kernel
    transform: nothing that was set on the previous one (stiffness,
    Poisson ratio, inversion method, landmarks) survives, the new object
    depends only on the dimension and the name, and a second call with
    the same name changes nothing more. *)
Theorem SetKernelType_fresh_kernel
    (dim : nat) (name : string) (this that : t) :
  m_KernelTransform (snd (SetKernelType dim name this))
  = New (KernelClass (m_KernelTransform (snd (SetKernelType dim name this))))
  ∧ m_KernelTransform (snd (SetKernelType dim name this))
    = m_KernelTransform (snd (SetKernelType dim name that))
  ∧ fst (SetKernelType dim name this) = fst (SetKernelType dim name that)
  ∧ SetKernelType dim name (snd (SetKernelType dim name this))
    = SetKernelType dim name this.
Proof.
  unfold SetKernelType.
  repeat (case_decide; [done|]).
  cbn. repeat split. unfold detach. cbn.
  by destruct (CurrentTransform this).
Qed.

(** X6.  After a successful selection the current transform is the new
    kernel transform itself, so whatever is then set on the kernel is
    seen through the current transform.  After a failed selection the
    current transform is still the one installed before: setters on the
    new generic kernel do not reach it, and the parameters seen through
    the combination transform are those from before the call. *)
Theorem SetKernelType_current_transform
    (dim : nat) (name : string) (this : t)
    (f : KernelTransform → KernelTransform) :
  (fst (SetKernelType dim name this) = true →
   GetParameters (on_kernel f (snd (SetKernelType dim name this)))
   = Some (Target (f (m_KernelTransform (snd (SetKernelType dim name this))))))
  ∧ (fst (SetKernelType dim name this) = false →
     GetParameters (on_kernel f (snd (SetKernelType dim name this)))
     = GetParameters this).
Proof.
  unfold SetKernelType.
  repeat (case_decide; [by split|]).
  cbn. split; [done|]. intros _.
  unfold GetParameters, detach. cbn. by destruct (CurrentTransform this).
Qed.

(** X6 at a supported and at an unsupported name, after a fit. *)
Lemma SetKernelType_current_transform_witness :
  GetParameters (on_kernel SetIdentity
                   (snd (SetKernelType 3 "VolumeSpline" (Constructor 3))))
  = Some TargetIdentity
  ∧ GetParameters (on_kernel SetIdentity
                     (snd (SetKernelType 3 "Bogus" (Constructor 3))))
    = GetParameters (Constructor 3).
Proof.
  split.
  - apply (proj1 (SetKernelType_current_transform 3 "VolumeSpline"
                    (Constructor 3) SetIdentity)).
    reflexivity.
  - apply (proj2 (SetKernelType_current_transform 3 "Bogus"
                    (Constructor 3) SetIdentity)).
    reflexivity.
Defined.

(** ** Fitting *)

(** The kernel type [BeforeRegistration] settles on: what is read for
    "SplineKernelType", "ThinPlateSpline" when nothing is. *)
Definition requested_kernel_type (elx : Elastix) : string :=
  match ReadParameter_prefixed Some (GetConfiguration elx) "ThinPlateSpline"
          "SplineKernelType" (GetComponentLabel elx) 0 with
  | Ok (_, kernelType) => kernelType
  | Raise _ => "ThinPlateSpline"
  end.

Lemma requested_kernel_type_read elx :
  ∃ found,
    ReadParameter_prefixed Some (GetConfiguration elx) "ThinPlateSpline"
      "SplineKernelType" (GetComponentLabel elx) 0
    = Ok (found, requested_kernel_type elx).
Proof.
  unfold requested_kernel_type.
  destruct (ReadParameter_prefixed_string_total (GetConfiguration elx)
              "ThinPlateSpline" "SplineKernelType" (GetComponentLabel elx))
    as (found & v & ->).
  eauto.
Qed.






(** A completed fit, with the reads that produced each setting. *)
Lemma BeforeRegistration_Ok_reads dim elx this this' :
  BeforeRegistration dim elx this = Ok this' →
  ∃ c found stiffness poisson found' method source target,
    SetKernelType dim (requested_kernel_type elx) this
    = (true, selected (requested_kernel_type elx) c this)
    ∧ ReadParameter_prefixed (StringCast_double (GetConfiguration elx))
        (GetConfiguration elx) 0%Q "SplineRelaxationFactor"
        (GetComponentLabel elx) 0 = Ok (found, stiffness)
    ∧ ReadParameter Some (GetConfiguration elx) "SVD"
        "TPSMatrixInversionMethod" 0 = Ok (found', method)
    ∧ ReadLandmarkFile elx (source_file (GetConfiguration elx)) true = Ok source
    ∧ (GetCommandLineArgument (GetConfiguration elx) "-mp" ≠ "" →
       ∃ pts, ReadLandmarkFile elx
                (GetCommandLineArgument (GetConfiguration elx) "-mp") false
              = Ok pts
              ∧ target = TargetLandmarks pts)
    ∧ (GetCommandLineArgument (GetConfiguration elx) "-mp" = "" →
       target = TargetIdentity)
    ∧ this' = fitted (requested_kernel_type elx) c stiffness poisson method
                source target.
Proof.
  unfold BeforeRegistration, DetermineSourceLandmarks, DetermineTargetLandmarks.
  fold (source_file (GetConfiguration elx)).
  destruct (requested_kernel_type_read elx) as [found0 ->].
  rewrite bind_Ok. cbv beta iota. intros H.
  destruct (SetKernelType dim (requested_kernel_type elx) this)
    as [known this1] eqn:Hset.
  destruct known; [|discriminate H]. cbn [negb] in H.
  destruct (SetKernelType_true_inv dim (requested_kernel_type elx) this)
    as [c Hc]; [by rewrite Hset|].
  rewrite Hset in Hc. injection Hc as ->.
  returned H (ReadParameter_prefixed (StringCast_double (GetConfiguration elx))
                (GetConfiguration elx) 0%Q "SplineRelaxationFactor"
                (GetComponentLabel elx) 0) as [[found stiffness]|?].
  fold (poisson_test (requested_kernel_type elx)) in H.
  destruct (poisson_test (requested_kernel_type elx)) eqn:Hp;
    [ returned H (ReadParameter_prefixed (StringCast_double (GetConfiguration elx))
                    (GetConfiguration elx) (3 # 10)%Q "SplinePoissonRatio"
                    (GetComponentLabel elx) 0) as [[? poisson]|?]
    | rewrite bind_Ok in H ];
    ( returned H (ReadParameter Some (GetConfiguration elx) "SVD"
                    "TPSMatrixInversionMethod" 0) as [[found' method]|?];
      returned H (ReadLandmarkFile elx (source_file (GetConfiguration elx)) true)
        as [source|?];
      case_decide as Hmp;
      [ | returned H (ReadLandmarkFile elx
                        (GetCommandLineArgument (GetConfiguration elx) "-mp") false)
            as [target|?] ];
      rewrite ?bind_Ok in H; cbv beta iota in H; injection H as <-;
      eexists c, found, stiffness, _, found', method, source, _;
      (split; [done|]); (split; [done|]); (split; [done|]); (split; [done|]);
      (split; [|split; [|reflexivity]]);
      first [ done | by eauto | intros; by eauto ] ).
Qed.

Lemma ReadParameter_prefixed_not_given {A} (cast : string → option A)
    cfg param name prefix e :
  not_given cfg name → not_given cfg (prefix +:+ name) →
  ReadParameter_prefixed cast cfg param name prefix e = Ok (false, param).
Proof.
  intros H1 H2. unfold ReadParameter_prefixed.
  rewrite (ReadParameter_not_given _ _ _ _ _ H1), bind_Ok. cbv beta iota.
  by rewrite (ReadParameter_not_given _ _ _ _ _ H2), bind_Ok.
Qed.

(** X9.  The defaults of a fit.  When "SplineKernelType" is not given
    (neither plain nor with the component label in front) the kernel type
    is "ThinPlateSpline"; when "SplineRelaxationFactor" is not given the
    stiffness is 0; when "TPSMatrixInversionMethod" is not given the
    inversion method is "SVD". *)
Theorem BeforeRegistration_defaults
    (dim : nat) (elx : Elastix) (this this' : t) :
  BeforeRegistration dim elx this = Ok this' →
  (not_given (GetConfiguration elx) "SplineKernelType" →
   not_given (GetConfiguration elx) (GetComponentLabel elx +:+ "SplineKernelType") →
   m_SplineKernelType this' = "ThinPlateSpline")
  ∧ (not_given (GetConfiguration elx) "SplineRelaxationFactor" →
     not_given (GetConfiguration elx)
       (GetComponentLabel elx +:+ "SplineRelaxationFactor") →
     Stiffness (m_KernelTransform this') = Some 0%Q)
  ∧ (not_given (GetConfiguration elx) "TPSMatrixInversionMethod" →
     MatrixInversionMethod (m_KernelTransform this') = Some "SVD").
Proof.
  intros H. apply BeforeRegistration_Ok_reads in H
    as (c & found & stiffness & poisson & found' & method & source & target
        & _ & Hs & Hm & _ & _ & _ & ->).
  cbn. split; [|split].
  - intros H1 H2. unfold requested_kernel_type.
    by rewrite ReadParameter_prefixed_not_given.
  - intros H1 H2. rewrite ReadParameter_prefixed_not_given in Hs by done.
    by injection Hs as _ <-.
  - intros H1. rewrite ReadParameter_not_given in Hm by done.
    by injection Hm as _ <-.
Qed.

(** X9 at a fit that gives no parameter at all. *)
Lemma BeforeRegistration_defaults_witness :
  ∃ this',
    BeforeRegistration 3
      (elastix (configuration IrregularThrows [("-fp", "fixed.txt")] []))
      (Constructor 3) = Ok this'
    ∧ m_SplineKernelType this' = "ThinPlateSpline"
    ∧ Stiffness (m_KernelTransform this') = Some 0%Q
    ∧ MatrixInversionMethod (m_KernelTransform this') = Some "SVD".
Proof.
  eexists. split; [reflexivity|].
  match goal with |- context [m_SplineKernelType ?x] => set (this' := x) end.
  destruct (BeforeRegistration_defaults 3
              (elastix (configuration IrregularThrows [("-fp", "fixed.txt")] []))
              (Constructor 3) this' eq_refl) as (H1 & H2 & H3).
  split; [apply H1; left; reflexivity|].
  split; [apply H2; left; reflexivity|].
  apply H3; left; reflexivity.
Defined.



(** ** Deserialisation and serialisation *)

Lemma ReadParameter_range_length {A} (cast : string → option A)
    cfg param name b e found values :
  ReadParameter_range cast cfg param name b e = Ok (found, values) →
  (length param ≤ length values)%nat.
Proof.
  unfold ReadParameter_range, irregular.
  destruct (ParameterMap cfg !! name) as [[|v vs]|];
    [by intros [= _ <-]| |by intros [= _ <-]].
  case_bool_decide; [destruct (mapM _ _) as [xs|]|].
  - intros [= _ <-]. rewrite length_app, length_drop. lia.
  - destruct (Irregular cfg); [done|by intros [= _ <-]..].
  - destruct (Irregular cfg); [done|by intros [= _ <-]..].
Qed.

(** X11.  What [ReadFromFile] hands to the base class.  Whenever
    [ReadFromFile] returns, the base class was entered with an object
    that records the kernel type named in the file and holds a freshly
    selected kernel transform on which a stiffness and, whatever the
    family, a Poisson ratio have been set, with exactly
    [numberOfParameters] fixed parameters, no inversion method and no
    moving side. *)
Theorem ReadFromFile_hands_over
    (dim : nat) (elx : Elastix) (this this' : t) :
  ReadFromFile dim elx this = Ok this' →
  ∃ x name rest found n,
    Superclass2_ReadFromFile elx x = Ok this'
    ∧ ParameterMap (GetConfiguration elx) !! "SplineKernelType"
      = Some (name :: rest)
    ∧ m_SplineKernelType x = name
    ∧ KernelClass (m_KernelTransform x)
      = KernelClass (m_KernelTransform (snd (SetKernelType dim name this)))
    ∧ CurrentTransform x = CurrentTransform (snd (SetKernelType dim name this))
    ∧ is_Some (Stiffness (m_KernelTransform x))
    ∧ is_Some (PoissonRatio (m_KernelTransform x))
    ∧ MatrixInversionMethod (m_KernelTransform x) = None
    ∧ Target (m_KernelTransform x) = TargetUnset
    ∧ ReadParameter (λ s, wrap32 <$> StringCast_uint (GetConfiguration elx) s)
        (GetConfiguration elx) 0 "NumberOfParameters" 0 = Ok (found, n)
    ∧ Z.of_nat (length (FixedParameters (m_KernelTransform x))) = n.
Proof.
  unfold ReadFromFile. intros H.
  destruct (given_or_not (GetConfiguration elx) "SplineKernelType")
    as [(name & rest & Hk)|Hk];
    [|by rewrite (ReadParameter_not_given _ _ _ _ _ Hk) in H].
  rewrite (ReadParameter_string _ _ _ _ _ Hk), bind_Ok in H.
  cbv beta iota in H. cbn [negb] in H.
  returned H (ReadParameter_prefixed (StringCast_double (GetConfiguration elx))
                (GetConfiguration elx) 0%Q "SplineRelaxationFactor"
                (GetComponentLabel elx) 0) as [[? stiffness]|?].
  returned H (ReadParameter_prefixed (StringCast_double (GetConfiguration elx))
                (GetConfiguration elx) (3 # 10)%Q "SplinePoissonRatio"
                (GetComponentLabel elx) 0) as [[? poisson]|?].
  destruct (ReadParameter _ _ 0 "NumberOfParameters" 0) as [[found n]|?] eqn:En;
    [rewrite bind_Ok in H; cbv beta iota in H|done].
  destruct (ReadParameter_range _ _ _ "FixedImageLandmarks" _ _)
    as [[retfil landmarks]|?] eqn:Er;
    [rewrite bind_Ok in H; cbv beta iota in H|done].
  destruct retfil; [|done]. cbn [negb] in H.
  destruct (Superclass2_ReadFromFile elx _) as [?|?] eqn:Hbase; [|done].
  injection H as <-.
  eexists _, name, rest, found, n. split; [exact Hbase|].
  split; [done|]. unfold SetKernelType.
  apply ReadParameter_range_length in Er. rewrite length_replicate in Er.
  pose proof (ReadParameter_uint_range _ _ _ En).
  repeat (case_decide;
          [cbn; rewrite length_take; repeat split; eauto; lia|]).
  cbn. rewrite length_take. repeat split; eauto; lia.
Qed.

(** X11 at the sample parameter file for "VolumeSpline" with three
    values. *)
Lemma ReadFromFile_hands_over_witness :
  ∃ x,
    Superclass2_ReadFromFile
      (parameter_file IrregularThrows "VolumeSpline" "3" ["1"; "2"; "3"]) x
    = Ok (loaded 0 (3 # 10) [1; 2; 3]%Q
            (snd (SetKernelType 3 "VolumeSpline" (Constructor 3))))
    ∧ is_Some (PoissonRatio (m_KernelTransform x))
    ∧ Z.of_nat (length (FixedParameters (m_KernelTransform x))) = 3.
Proof.
  destruct (ReadFromFile_hands_over 3
              (parameter_file IrregularThrows "VolumeSpline" "3" ["1"; "2"; "3"])
              (Constructor 3)
              (loaded 0 (3 # 10) [1; 2; 3]%Q
                 (snd (SetKernelType 3 "VolumeSpline" (Constructor 3))))
              eq_refl)
    as (x & name & rest & found & n & Hbase & _ & _ & _ & _ & _ & Hp & _ & _
        & Hn & Hlen).
  exists x. split; [exact Hbase|]. split; [exact Hp|].
  rewrite Hlen. by injection Hn as _ <-.
Defined.

(** X12.  Writing what was fitted.  After a completed fit the fixed
    parameters are the coordinates of the source landmarks, in file
    order.  If there is at least one coordinate, [WriteToFile] writes
    them all; if the source landmark file holds no point, it reads
    element 0 of an empty array. *)
Theorem BeforeRegistration_then_WriteToFile
    (dim : nat) (elx : Elastix) (this this' : t) (base : list TransparLine) :
  BeforeRegistration dim elx this = Ok this' →
  ∃ source,
    ReadLandmarkFile elx (source_file (GetConfiguration elx)) true = Ok source
    ∧ FixedParameters (m_KernelTransform this') = concat source
    ∧ (concat source = [] →
       WriteToFile base this' = Raise (SubscriptOutOfRange 0 0))
    ∧ (concat source ≠ [] → Z.of_nat (length (concat source)) < 2 ^ 32 →
       WriteToFile base this' = Ok (base ++ written this')
       ∧ ParameterLine "FixedImageLandmarks" (Number <$> concat source)
         ∈ written this').
Proof.
  intros H. apply BeforeRegistration_Ok_reads in H
    as (c & found & stiffness & poisson & found' & method & source & target
        & _ & _ & _ & Hs & _ & _ & ->).
  exists source. split; [done|]. split; [done|]. split.
  - intros Hnil. by apply WriteToFile_empty.
  - intros Hne Hsmall. split; [by apply WriteToFile_nonempty|].
    unfold written. cbn. do 5 apply list_elem_of_further. apply list_elem_of_here.
Qed.

(** X12 at the sample fit with four source landmarks. *)
Lemma BeforeRegistration_then_WriteToFile_witness :
  ∃ this' source,
    BeforeRegistration 3 (fit_with "VolumeSpline") (Constructor 3) = Ok this'
    ∧ ReadLandmarkFile (fit_with "VolumeSpline")
        (source_file (GetConfiguration (fit_with "VolumeSpline"))) true
      = Ok source
    ∧ FixedParameters (m_KernelTransform this') = concat source
    ∧ (concat source = [] →
       WriteToFile [] this' = Raise (SubscriptOutOfRange 0 0))
    ∧ (concat source ≠ [] → Z.of_nat (length (concat source)) < 2 ^ 32 →
       WriteToFile [] this' = Ok ([] ++ written this')
       ∧ ParameterLine "FixedImageLandmarks" (Number <$> concat source)
         ∈ written this').
Proof.
  eexists. 
  refine ((λ H, match BeforeRegistration_then_WriteToFile 3
                        (fit_with "VolumeSpline") (Constructor 3) _ [] H with
                | ex_intro _ source Hs => ex_intro _ source (conj H Hs)
                end) eq_refl).
Defined.

(** *** Round trip *)

(** The text of a written value, given how the stream formats numbers; a
    value that was never set has no text of its own. *)
Definition render (format : Q → string) (v : TransparValue) : option string :=
  match v with
  | Quoted s => Some s
  | Number q => Some (format q)
  | ClassDefault => None
  end.

(** The parameter map holds what was written: every parameter line is an
    entry of the map with the rendered values. *)
Definition holds (format : Q → string) (cfg : Configuration)
    (lines : list TransparLine) : Prop :=
  ∀ name values,
    ParameterLine name values ∈ lines →
    ∃ texts, mapM (render format) values = Some texts
             ∧ ParameterMap cfg !! name = Some texts.

Lemma ReadParameter_prefixed_given {A} (cast : string → option A)
    cfg param name prefix text v :
  ParameterMap cfg !! name = Some [text] →
  cast text = Some v →
  not_given cfg (prefix +:+ name) →
  ReadParameter_prefixed cast cfg param name prefix 0 = Ok (true, v).
Proof.
  intros Hname Hcast Hprefixed. unfold ReadParameter_prefixed.
  assert (ReadParameter cast cfg param name 0 = Ok (true, v)) as ->.
  { unfold ReadParameter. rewrite Hname.
    change ([text] !! Z.to_nat 0 ≫= cast) with (cast text). by rewrite Hcast. }
  rewrite bind_Ok. cbv beta iota.
  by rewrite (ReadParameter_not_given _ _ _ _ _ Hprefixed), bind_Ok.
Qed.

(** X13.  Round trip.  Let [WriteToFile] have written a transform that
    has a stiffness and a Poisson ratio set, and let a parameter map hold
    what was written, with numbers formatted so that they cast back to
    themselves, with "NumberOfParameters" equal to the number of fixed
    parameters, and without label-prefixed variants of the two scalar
    keys.  Then [ReadFromFile] raises nothing of its own and enters the
    base class with the kernel type, stiffness, Poisson ratio and fixed
    parameters that were written, on the kernel class that the kernel
    type selects. *)
Theorem WriteToFile_ReadFromFile
    (dim : nat) (elx : Elastix) (format : Q → string)
    (this that : t) (base lines : list TransparLine) :
  Z.of_nat (length (FixedParameters (m_KernelTransform this))) < 2 ^ 32 →
  WriteToFile base this = Ok lines →
  holds format (GetConfiguration elx) lines →
  (∀ q, Stiffness (m_KernelTransform this) = Some q
        ∨ PoissonRatio (m_KernelTransform this) = Some q
        ∨ q ∈ FixedParameters (m_KernelTransform this) →
        StringCast_double (GetConfiguration elx) (format q) = Some q) →
  declared (GetConfiguration elx)
    (Z.of_nat (length (FixedParameters (m_KernelTransform this)))) →
  not_given (GetConfiguration elx)
    (GetComponentLabel elx +:+ "SplineRelaxationFactor") →
  not_given (GetConfiguration elx)
    (GetComponentLabel elx +:+ "SplinePoissonRatio") →
  ∃ stiffness poisson,
    Stiffness (m_KernelTransform this) = Some stiffness
    ∧ PoissonRatio (m_KernelTransform this) = Some poisson
    ∧ ReadFromFile dim elx that
      = base_ReadFromFile elx
          (loaded stiffness poisson (FixedParameters (m_KernelTransform this))
             (snd (SetKernelType dim (m_SplineKernelType this) that))).
Proof.
  intros Hsmall Hwrite Hholds Hcast Hn Hps Hpp.
  assert (FixedParameters (m_KernelTransform this) ≠ []) as Hne.
  { intros Hnil. destruct (WriteToFile_empty base this Hnil) as (_ & _ & H).
    by rewrite H in Hwrite. }
  rewrite WriteToFile_nonempty in Hwrite by done. injection Hwrite as <-.
  assert (∀ name values, ParameterLine name values ∈ written this →
            ∃ texts, mapM (render format) values = Some texts
                     ∧ ParameterMap (GetConfiguration elx) !! name = Some texts)
    as Hw.
  { intros name values Hin. apply Hholds, elem_of_app. by right. }
  unfold written in Hw.
  destruct (Hw "SplineKernelType" [Quoted (m_SplineKernelType this)])
    as (? & [= <-] & Hk);
    [do 2 apply list_elem_of_further; apply list_elem_of_here|].
  destruct (Hw "SplinePoissonRatio" [shown (PoissonRatio (m_KernelTransform this))])
    as (tp & Htp & Hp);
    [do 3 apply list_elem_of_further; apply list_elem_of_here|].
  destruct (Hw "SplineRelaxationFactor" [shown (Stiffness (m_KernelTransform this))])
    as (ts & Hts & Hs);
    [do 4 apply list_elem_of_further; apply list_elem_of_here|].
  destruct (Hw "FixedImageLandmarks"
              (Number <$> FixedParameters (m_KernelTransform this)))
    as (tl & Htl & Hl);
    [do 5 apply list_elem_of_further; apply list_elem_of_here|].
  destruct (PoissonRatio (m_KernelTransform this)) as [poisson|]; [|done].
  destruct (Stiffness (m_KernelTransform this)) as [stiffness|]; [|done].
  pose proof (Hcast stiffness (or_introl eq_refl)) as Hcs.
  pose proof (Hcast poisson (or_intror (or_introl eq_refl))) as Hcp.
  injection Htp as <-. injection Hts as <-.
  assert (tl = format <$> FixedParameters (m_KernelTransform this)) as ->.
  { clear -Htl. revert tl Htl.
    induction (FixedParameters (m_KernelTransform this)) as [|q qs IH];
      intros tl; cbn; [by intros [= <-]|].
    destruct (mapM (render format) (Number <$> qs)) as [tl'|] eqn:E; [|done].
    cbn. intros [= <-]. f_equal. by apply IH. }
  exists stiffness, poisson. split; [done|]. split; [done|].
  apply (ReadFromFile_regular dim elx that (m_SplineKernelType this) []
           true stiffness true poisson
           (Z.of_nat (length (FixedParameters (m_KernelTransform this))))
           (format <$> FixedParameters (m_KernelTransform this))
           (FixedParameters (m_KernelTransform this)) Hk).
  - by apply ReadParameter_prefixed_given with (format stiffness).
  - by apply ReadParameter_prefixed_given with (format poisson).
  - exact Hn.
  - exact Hl.
  - rewrite length_fmap.
    destruct (FixedParameters (m_KernelTransform this)); [done|cbn; lia].
  - rewrite Nat2Z.id, take_ge by (by rewrite length_fmap).
    apply mapM_fmap_Forall_Some, Forall_forall. intros q Hq. apply Hcast. eauto.
Qed.

(** A format for the numbers 0 to 3, which the sample cast reads back. *)
Definition format_small (q : Q) : string :=
  match Qnum q with
  | 0 => "0"
  | 1 => "1"
  | 2 => "2"
  | _ => "3"
  end.

(** X13 at a transform with three fixed parameters and the parameter map
    that holds what is written for it. *)
Lemma WriteToFile_ReadFromFile_witness :
  ReadFromFile 3
    (elastix (configuration IrregularThrows []
                [ ("SplineKernelType", ["VolumeSpline"]);
                  ("SplinePoissonRatio", ["2"]);
                  ("SplineRelaxationFactor", ["0"]);
                  ("NumberOfParameters", ["3"]);
                  ("FixedImageLandmarks", ["1"; "2"; "3"]) ]))
    (Constructor 3)
  = Ok (loaded 0 2 [1; 2; 3]%Q
          (snd (SetKernelType 3 "VolumeSpline" (Constructor 3)))).
Proof.
  destruct (WriteToFile_ReadFromFile 3
              (elastix (configuration IrregularThrows []
                          [ ("SplineKernelType", ["VolumeSpline"]);
                            ("SplinePoissonRatio", ["2"]);
                            ("SplineRelaxationFactor", ["0"]);
                            ("NumberOfParameters", ["3"]);
                            ("FixedImageLandmarks", ["1"; "2"; "3"]) ]))
              format_small
              (loaded 0 2 [1; 2; 3]%Q
                 (snd (SetKernelType 3 "VolumeSpline" (Constructor 3))))
              (Constructor 3) []
              (written (loaded 0 2 [1; 2; 3]%Q
                          (snd (SetKernelType 3 "VolumeSpline" (Constructor 3))))))
    as (stiffness & poisson & Hs & Hp & Hread).
  - reflexivity.
  - reflexivity.
  - intros name values Hin. unfold written in Hin. cbn in Hin.
    repeat (apply elem_of_cons in Hin as [Hin|Hin];
            [try discriminate Hin;
             try (injection Hin as -> ->; eexists; split; reflexivity)|]).
    by apply elem_of_nil in Hin.
  - intros q [Hq|[Hq|Hq]].
    + injection Hq as <-. reflexivity.
    + injection Hq as <-. reflexivity.
    + cbn in Hq.
      repeat (apply elem_of_cons in Hq as [->|Hq]; [reflexivity|]).
      by apply elem_of_nil in Hq.
  - exists "3", []. split; [reflexivity|]. split; [reflexivity|].
    split; [intros H; discriminate H|reflexivity].
  - left. reflexivity.
  - left. reflexivity.
  - injection Hs as <-. injection Hp as <-. exact Hread.
Defined.

End SplineKernelTransformExtra.

(** * Further properties of [TransformixFilter] *)
Module TransformixFilterExtra.

Import TransformixFilter FilterSamples TransformixFilterSpec.

(** ** The run, step by step *)

(** Lines 65-73: the output directory defaults to ".". *)
Definition resolved (this : t) : t :=
  if wants_output_directory this && bool_decide (m_OutputDirectory this = "")
  then SetOutputDirectory "." this else this.

(** Lines 96-108, the guard of line 102 being true for every directory. *)
Definition normalized (this : t) : t :=
  if bool_decide (m_OutputDirectory this = "") then this
  else SetOutputDirectory (m_OutputDirectory this +:+ "/") this.

(** Lines 95-128: the argument map. *)
Definition arguments (this : t) : gmap string string :=
  let argumentMap :=
    map_insert "-out"
      (if bool_decide (m_OutputDirectory this = "")
       then "output_path_not_set" else m_OutputDirectory this) ∅ in
  let argumentMap :=
    if m_ComputeSpatialJacobian this
    then map_insert "-jacmat" "all" argumentMap else argumentMap in
  let argumentMap :=
    if m_ComputeDeterminantOfSpatialJacobian this
    then map_insert "-jac" "all" argumentMap else argumentMap in
  let argumentMap :=
    if m_ComputeDeformationField this
    then map_insert "-def" "all" argumentMap else argumentMap in
  if negb (bool_decide (m_InputPointSetFileName this = ""))
  then map_insert "-def" (m_InputPointSetFileName this) argumentMap
  else argumentMap.

(** Lines 130-146: the second append, and the log file name. *)
Definition logged (this : t) : t :=
  if m_LogToFile this && negb (bool_decide (m_LogFileName this = ""))
  then SetOutputDirectory (m_OutputDirectory this +:+ "/") this else this.

Definition log_file_name (this : t) : string :=
  if m_LogToFile this then
    if bool_decide (m_LogFileName this = "")
    then m_OutputDirectory this +:+ "transformix.log"
    else m_OutputDirectory this +:+ m_LogFileName this
  else "".

(** The filter as it is when transformix is set up. *)
Definition prepared (this : t) : t := logged (normalized (resolved this)).

(** Lines 156-164: the input image container. *)
Definition input_container (this : t) : option (list Image) :=
  if negb (IsEmpty (InputImage this)) then Some [InputImage this] else None.

(** Lines 187-211: what the run makes of transformix's outcome. *)
Definition concluded (outcome : RunOutcome) (this : t) (log : list Event)
  : Result Exception unit * World :=
  match outcome with
  | RunThrows what =>
      (Raise (ErrorsDuringRegistration what), {| this_ := this; events := log |})
  | RunReturns isError resultImageContainer =>
      if bool_decide (isError = 0) then
        (Ok (),
         {| this_ := match resultImageContainer with
                     | Some (image :: _) => GraftOutput image this
                     | _ => this
                     end;
            events := log ++ [UnloadComponents] |})
      else (Raise UncaughtErrorsDuringRegistration,
            {| this_ := this; events := log |})
  end.

(** The whole of [GenerateData] as one decision table. *)
Definition outcome_of (env : Environment) (this : t)
  : Result Exception unit * World :=
  if nothing_requested this then
    (Raise NothingRequested, {| this_ := this; events := [] |})
  else if wants_output_directory this
          && negb (FileExists env (m_OutputDirectory (resolved this))) then
    (Raise (OutputDirectoryDoesNotExist (m_OutputDirectory (resolved this))),
     {| this_ := resolved this; events := [] |})
  else if m_ComputeDeformationField this
          && negb (bool_decide (m_InputPointSetFileName this = "")) then
    (Raise DeformationFieldAndPointSet,
     {| this_ := resolved this; events := [] |})
  else
    let setup :=
      XoutSetup (log_file_name (prepared this))
        (m_LogToFile this) (m_LogToConsole this) in
    if negb (bool_decide
               (xoutSetup env (log_file_name (prepared this))
                  (m_LogToFile this) (m_LogToConsole this) = 0)) then
      (Raise ErrorWhileSettingUpXout,
       {| this_ := prepared this; events := [setup] |})
    else if bool_decide (length (TransformParameterObject this) = 0%nat) then
      (Raise EmptyParameterMap,
       {| this_ := prepared this; events := [setup] |})
    else
      concluded
        (Run env (input_container this)
           (arguments (normalized (resolved this)))
           (set_type_information env <$> TransformParameterObject this))
        (prepared this) [setup; TransformixRun].

Lemma run_get {A} (k : t → M A) w : (get ≫= k) w = k (this_ w) w.
Proof. reflexivity. Qed.

Lemma run_ret {A B} (a : A) (k : A → M B) w : (mret a ≫= k) w = k a w.
Proof. reflexivity. Qed.

Lemma run_modify {A} (f : t → t) (k : unit → M A) w :
  (modify f ≫= k) w = k () {| this_ := f (this_ w); events := events w |}.
Proof. reflexivity. Qed.

Lemma run_emit {A} (e : Event) (k : unit → M A) w :
  (emit e ≫= k) w = k () {| this_ := this_ w; events := events w ++ [e] |}.
Proof. reflexivity. Qed.

Lemma run_when_raise {A} (b : bool) (e : Exception) (k : unit → M A) w :
  (when b (itkExceptionMacro e) ≫= k) w = if b then (Raise e, w) else k () w.
Proof. by destruct b. Qed.

Lemma run_when_modify {A} (b : bool) (f : t → t) (k : unit → M A) w :
  (when b (modify f) ≫= k) w
  = k () {| this_ := if b then f (this_ w) else this_ w; events := events w |}.
Proof. destruct b; [reflexivity|]. by destruct w. Qed.

Lemma run_assoc {A B C} (m : M A) (f : A → M B) (g : B → M C) w :
  ((m ≫= f) ≫= g) w = (m ≫= λ a, f a ≫= g) w.
Proof.
  unfold mbind, M_bind. by destruct (m w) as [[a|e] w'].
Qed.

(** Everything of a filter but its output directory and result image. *)
Definition request (this : t) :=
  (InputImage this, TransformParameterObject this,
   m_InputPointSetFileName this, m_ComputeSpatialJacobian this,
   m_ComputeDeterminantOfSpatialJacobian this, m_ComputeDeformationField this,
   m_LogFileName this, m_LogToConsole this, m_LogToFile this).

Lemma request_resolved this : request (resolved this) = request this.
Proof. unfold resolved. by destruct (_ && _). Qed.

Lemma request_normalized this : request (normalized this) = request this.
Proof. unfold normalized. by destruct (bool_decide _). Qed.

Lemma request_logged this : request (logged this) = request this.
Proof. unfold logged. by destruct (_ && _). Qed.

Lemma request_prepared this : request (prepared this) = request this.
Proof.
  unfold prepared. by rewrite request_logged, request_normalized, request_resolved.
Qed.

(** Rewrite the fields of [that] that the request fixes into those of
    [this]. *)
Ltac same_request H :=
  let H' := fresh in
  let H1 := fresh in let H2 := fresh in let H3 := fresh in
  let H4 := fresh in let H5 := fresh in let H6 := fresh in
  let H7 := fresh in let H8 := fresh in let H9 := fresh in
  pose proof H as H'; unfold request in H';
  injection H' as H1 H2 H3 H4 H5 H6 H7 H8 H9;
  rewrite ?H1, ?H2, ?H3, ?H4, ?H5, ?H6, ?H7, ?H8, ?H9.

Lemma ResultImage_prepared this : ResultImage (prepared this) = ResultImage this.
Proof.
  unfold prepared, logged, normalized, resolved.
  by repeat (destruct (_ && _) || destruct (bool_decide _)).
Qed.

Lemma wants_output_directory_request this that :
  request this = request that →
  wants_output_directory this = wants_output_directory that.
Proof. unfold wants_output_directory. intros H. by same_request H. Qed.

(** Run the statements at the head of a body that cannot raise. *)
Ltac exec :=
  repeat first
    [ rewrite run_get | rewrite run_ret | rewrite run_modify | rewrite run_emit
    | rewrite run_assoc | progress cbv beta | progress cbn [this_ events] ].

Lemma GenerateData_outcome env this : run env this = outcome_of env this.
Proof.
  unfold run, outcome_of, GenerateData.
  rewrite run_get. cbn [this_]. rewrite run_when_raise.
  fold (nothing_requested this).
  destruct (nothing_requested this); [reflexivity|].
  rewrite run_get. cbn [this_]. rewrite run_when_modify. cbn [this_ events].
  fold (resolved this).
  rewrite run_get. cbn [this_]. rewrite run_when_raise.
  rewrite (wants_output_directory_request _ _ (request_resolved this)).
  destruct (_ && negb (FileExists _ _)); [reflexivity|].
  rewrite run_when_raise.
  same_request (request_resolved this).
  destruct (_ && negb (bool_decide _)); [reflexivity|].
  (* the argument map *)
  assert (∀ (k : gmap string string → M unit),
    ((if bool_decide (m_OutputDirectory (resolved this) = "")
      then mret (map_insert "-out" "output_path_not_set" ∅)
      else
        when (lacks_trailing_separator (m_OutputDirectory (resolved this)))
          (modify (SetOutputDirectory (m_OutputDirectory (resolved this) +:+ "/")))
        ≫= λ _, get ≫= λ this0, mret (map_insert "-out" (m_OutputDirectory this0) ∅))
     ≫= k) {| this_ := resolved this; events := [] |}
    = k (map_insert "-out"
           (if bool_decide (m_OutputDirectory (normalized (resolved this)) = "")
            then "output_path_not_set"
            else m_OutputDirectory (normalized (resolved this))) ∅)
        {| this_ := normalized (resolved this); events := [] |}) as ->.
  { intros k. unfold normalized.
    destruct (bool_decide (m_OutputDirectory (resolved this) = "")) eqn:Hd.
    - by rewrite run_ret, Hd.
    - rewrite run_assoc, lacks_trailing_separator_always. cbn [when].
      exec. cbn [m_OutputDirectory SetOutputDirectory].
      rewrite bool_decide_eq_false_2; [done|].
      by destruct (m_OutputDirectory (resolved this)). }
  rewrite run_get. cbn [this_].
  (* the log file *)
  assert (∀ (that : t) (k : string → M unit),
    ((if m_LogToFile that then
        if bool_decide (m_LogFileName that = "")
        then mret (m_OutputDirectory that +:+ "transformix.log")
        else
          when (lacks_trailing_separator (m_OutputDirectory that))
            (modify (SetOutputDirectory (m_OutputDirectory that +:+ "/")))
          ≫= λ _, get ≫= λ this0,
               mret (m_OutputDirectory this0 +:+ m_LogFileName this0)
      else mret "")
     ≫= k) {| this_ := that; events := [] |}
    = k (log_file_name (logged that)) {| this_ := logged that; events := [] |})
    as Hlog.
  { intros that k. unfold logged, log_file_name.
    destruct (m_LogToFile that) eqn:Hfile; cbn [andb];
      [destruct (bool_decide (m_LogFileName that = "")) eqn:Hname; cbn [negb]|].
    - by rewrite run_ret, Hfile, Hname.
    - rewrite run_assoc, lacks_trailing_separator_always. cbn [when].
      exec. cbn [m_OutputDirectory m_LogFileName m_LogToFile SetOutputDirectory].
      by rewrite Hfile, Hname.
    - by rewrite run_ret, Hfile. }
  rewrite Hlog. clear Hlog. fold (prepared this).
  exec. rewrite run_when_raise.
  clear. same_request (request_prepared this).
  destruct (negb (bool_decide (xoutSetup _ _ _ _ = 0))); [reflexivity|].
  rewrite run_when_raise.
  destruct (bool_decide (length _ = 0%nat)); [reflexivity|].
  exec. unfold concluded, input_container.
  destruct (Run env _ _ _) as [isError container|what]; [|reflexivity].
  rewrite run_when_raise.
  destruct (bool_decide (isError = 0)); cbn [negb]; [|reflexivity].
  by destruct container as [[|image rest]|].
Qed.

(** ** The checks, in the order they are made *)

Definition directory_missing (env : Environment) (this : t) : bool :=
  wants_output_directory this
  && negb (FileExists env (m_OutputDirectory (resolved this))).

Definition conflicting (this : t) : bool :=
  m_ComputeDeformationField this
  && negb (bool_decide (m_InputPointSetFileName this = "")).

Definition xout_fails (env : Environment) (this : t) : bool :=
  negb (bool_decide
          (xoutSetup env (log_file_name (prepared this))
             (m_LogToFile this) (m_LogToConsole this) = 0)).

Definition no_parameter_map (this : t) : bool :=
  bool_decide (length (TransformParameterObject this) = 0%nat).

(** What transformix is run on, and what it answers. *)
Definition transformix_outcome (env : Environment) (this : t) : RunOutcome :=
  Run env (input_container this)
    (arguments (normalized (resolved this)))
    (set_type_information env <$> TransformParameterObject this).

Definition checks_pass (env : Environment) (this : t) : bool :=
  negb (nothing_requested this) && negb (directory_missing env this)
  && negb (conflicting this) && negb (xout_fails env this)
  && negb (no_parameter_map this).

(** Split the decision table into its rows. *)
Ltac rows env this :=
  rewrite ?GenerateData_outcome;
  unfold outcome_of, checks_pass;
  fold (directory_missing env this) (conflicting this) (xout_fails env this)
       (no_parameter_map this) (transformix_outcome env this);
  destruct (nothing_requested this) eqn:?;
    [|destruct (directory_missing env this) eqn:?;
      [|destruct (conflicting this) eqn:?;
        [|destruct (xout_fails env this) eqn:?;
          [|destruct (no_parameter_map this) eqn:?;
            [|unfold concluded;
              destruct (transformix_outcome env this)
                as [isError resultImageContainer|what] eqn:?;
              [destruct (bool_decide (isError = 0)) eqn:?|]]]]]];
  cbn [fst snd this_ events negb andb].

(** X14.  The errors of a run, in order.  Each error is raised exactly
    when its own condition holds and every earlier check has passed:
    nothing requested; then the output directory (defaulted to ".")
    missing; then deformation field and point set both requested; then
    the log set-up failing; then an empty parameter object; then
    transformix throwing (its message is kept) or returning a non-zero
    code.  The run returns exactly when all checks pass and transformix
    returns zero. *)
Theorem GenerateData_errors_in_order (env : Environment) (this : t) :
  (fst (run env this) = Raise NothingRequested ↔ nothing_requested this = true)
  ∧ (∀ dir, fst (run env this) = Raise (OutputDirectoryDoesNotExist dir)
            ↔ nothing_requested this = false
              ∧ directory_missing env this = true
              ∧ dir = m_OutputDirectory (resolved this))
  ∧ (fst (run env this) = Raise DeformationFieldAndPointSet
     ↔ nothing_requested this = false ∧ directory_missing env this = false
       ∧ conflicting this = true)
  ∧ (fst (run env this) = Raise ErrorWhileSettingUpXout
     ↔ nothing_requested this = false ∧ directory_missing env this = false
       ∧ conflicting this = false ∧ xout_fails env this = true)
  ∧ (fst (run env this) = Raise EmptyParameterMap
     ↔ nothing_requested this = false ∧ directory_missing env this = false
       ∧ conflicting this = false ∧ xout_fails env this = false
       ∧ TransformParameterObject this = [])
  ∧ (∀ what, fst (run env this) = Raise (ErrorsDuringRegistration what)
             ↔ checks_pass env this = true
               ∧ transformix_outcome env this = RunThrows what)
  ∧ (fst (run env this) = Raise UncaughtErrorsDuringRegistration
     ↔ checks_pass env this = true
       ∧ ∃ isError container,
           transformix_outcome env this = RunReturns isError container
           ∧ isError ≠ 0)
  ∧ (fst (run env this) = Ok ()
     ↔ checks_pass env this = true
       ∧ ∃ container, transformix_outcome env this = RunReturns 0 container).
Proof.
  assert (no_parameter_map this = true ↔ TransformParameterObject this = [])
    as Hmaps.
  { unfold no_parameter_map. rewrite bool_decide_eq_true.
    by destruct (TransformParameterObject this). }
  assert (no_parameter_map this = false → TransformParameterObject this ≠ [])
    as Hmaps'.
  { intros H Hnil. apply Hmaps in Hnil. congruence. }
  rows env this;
    repeat match goal with
           | H : bool_decide (_ = 0) = true |- _ => apply bool_decide_eq_true in H
           | H : bool_decide (_ = 0) = false |- _ => apply bool_decide_eq_false in H
           end;
    repeat split;
    try (intros; discriminate);
    try (intros; simplify_eq; done);
    try (intros; simplify_eq; tauto);
    try (intros (? & ?); discriminate);
    try (by intros (? & ? & ?));
    try (by intros (? & ? & ? & ?));
    try (by intros (? & ? & ? & ? & ?));
    try (by intros (? & (? & ? & ? & ?)));
    try (by intros (? & (? & ?)));
    try (intros; simplify_eq; eauto 6; fail).
  all: try (intros; simplify_eq; repeat split; eauto; by apply Hmaps).
  all: try (intros (_ & _ & _ & _ & Hnil); by apply Hmaps' in Hnil).
  all: try (intros [_ (? & ? & [= -> _] & ?)]; done).
  all: try (intros [_ [? [= <- _]]]; done).
  - by intros (_ & _ & ->).
  - intros [_ [? [= ? _]]]. congruence.
  - by intros [_ [= ->]].
Qed.

(** ** What a run changes *)

(** X15.  A run changes nothing of the request: whether it returns or
    raises, the input image, the parameter object, the point set file
    name, the three flags and the log settings are afterwards what they
    were.  In particular the type information that is written into the
    parameter maps reaches transformix only, not the caller's parameter
    object. *)
Theorem GenerateData_keeps_request (env : Environment) (this : t) :
  request (this_ (snd (run env this))) = request this
  ∧ GetTransformParameterObject (this_ (snd (run env this)))
    = GetTransformParameterObject this.
Proof.
  assert (request (this_ (snd (run env this))) = request this) as H.
  { rows env this;
      try destruct resultImageContainer as [[|image rest]|];
      first [done | apply request_resolved | apply request_prepared]. }
  split; [done|]. unfold GetTransformParameterObject.
  unfold request in H. by injection H.
Qed.

(** X16.  No partial result.  A run that raises leaves the result image
    as it was.  A run that returns has the first image of transformix's
    result container as its result image, and keeps the old one when the
    container is null or empty. *)
Theorem GenerateData_result_image (env : Environment) (this : t) :
  (∀ e w, run env this = (Raise e, w) →
          ResultImage (this_ w) = ResultImage this)
  ∧ (∀ w, run env this = (Ok (), w) →
       ∃ container,
         transformix_outcome env this = RunReturns 0 container
         ∧ ResultImage (this_ w)
           = match container with
             | Some (image :: _) => Some image
             | _ => ResultImage this
             end).
Proof.
  assert (ResultImage (resolved this) = ResultImage this) as Hr.
  { unfold resolved. by destruct (_ && _). }
  split.
  - intros e w. rows env this; intros [= <- <-];
      cbn; by rewrite ?Hr, ?ResultImage_prepared.
  - intros w. rows env this; intros [= <-].
    match goal with
    | H : bool_decide (isError = 0) = true |- _ =>
        apply bool_decide_eq_true in H as ->
    end.
    exists resultImageContainer. split; [done|].
    destruct resultImageContainer as [[|image rest]|]; cbn;
      by rewrite ?ResultImage_prepared.
Qed.

(** X16 at the sample run that succeeds and at one that fails. *)
Lemma GenerateData_result_image_witness :
  ResultImage (this_ (snd (run (environment [] (RunThrows "boom"))
                             (filter "" false "" ""))))
  = None
  ∧ ∃ container,
      transformix_outcome (environment [] succeeds) (filter "" false "" "")
      = RunReturns 0 container
      ∧ ResultImage (this_ (snd (run (environment [] succeeds)
                                   (filter "" false "" ""))))
        = match container with
          | Some (image :: _) => Some image
          | _ => None
          end.
Proof.
  split.
  - exact (proj1 (GenerateData_result_image (environment [] (RunThrows "boom"))
                    (filter "" false "" "")) _ _ eq_refl).
  - exact (proj2 (GenerateData_result_image (environment [] succeeds)
                    (filter "" false "" "")) _ eq_refl).
Defined.

(** The output directory as the checks see it: "." when one is wanted and
    none is set. *)
Definition directory (this : t) : string :=
  if wants_output_directory this && bool_decide (m_OutputDirectory this = "")
  then "." else m_OutputDirectory this.

Lemma m_OutputDirectory_resolved this :
  m_OutputDirectory (resolved this) = directory this.
Proof. unfold resolved, directory. by destruct (_ && _). Qed.

Lemma directory_wanted this :
  wants_output_directory this = true → directory this ≠ "".
Proof.
  unfold directory. intros ->. cbn [andb]. by case_bool_decide.
Qed.

Lemma m_OutputDirectory_prepared this :
  m_OutputDirectory (prepared this)
  = if bool_decide (directory this = "") then ""
    else if m_LogToFile this && negb (bool_decide (m_LogFileName this = ""))
         then (directory this +:+ "/") +:+ "/"
         else directory this +:+ "/".
Proof.
  unfold prepared, logged.
  pose proof (request_normalized (resolved this)) as Hn.
  pose proof (request_resolved this) as Hr.
  unfold request in Hn, Hr.
  injection Hn as _ _ _ _ _ _ -> _ ->. injection Hr as _ _ _ _ _ _ -> _ ->.
  unfold normalized. rewrite m_OutputDirectory_resolved.
  destruct (bool_decide (directory this = "")) eqn:Hd.
  - apply bool_decide_eq_true in Hd.
    destruct (m_LogToFile this) eqn:Hlog; cbn [andb];
      [|by rewrite m_OutputDirectory_resolved].
    exfalso. apply (directory_wanted this); [|done].
    unfold wants_output_directory. by rewrite Hlog, orb_true_r.
  - by destruct (_ && _).
Qed.

Lemma lookup_map_insert_eq k v (m : gmap string string) :
  map_insert k v m !! k = Some (default v (m !! k)).
Proof.
  unfold map_insert. destruct (m !! k) eqn:E; [done|by rewrite lookup_insert_eq].
Qed.

Lemma lookup_map_insert_ne k k' v (m : gmap string string) :
  k ≠ k' → map_insert k v m !! k' = m !! k'.
Proof.
  intros Hne. unfold map_insert. destruct (m !! k); [done|].
  by rewrite lookup_insert_ne.
Qed.

(** The entries of the argument map. *)
Lemma arguments_lookup this :
  arguments this !! "-out"
  = Some (if bool_decide (m_OutputDirectory this = "")
          then "output_path_not_set" else m_OutputDirectory this)
  ∧ arguments this !! "-jacmat"
    = (if m_ComputeSpatialJacobian this then Some "all" else None)
  ∧ arguments this !! "-jac"
    = (if m_ComputeDeterminantOfSpatialJacobian this then Some "all" else None)
  ∧ arguments this !! "-def"
    = (if m_ComputeDeformationField this then Some "all"
       else if bool_decide (m_InputPointSetFileName this = "") then None
            else Some (m_InputPointSetFileName this))
  ∧ (∀ key, key ∉ ["-out"; "-jacmat"; "-jac"; "-def"] →
            arguments this !! key = None).
Proof.
  unfold arguments. cbv zeta.
  destruct (m_ComputeSpatialJacobian this),
           (m_ComputeDeterminantOfSpatialJacobian this),
           (m_ComputeDeformationField this),
           (bool_decide (m_InputPointSetFileName this = ""));
    cbn [negb];
    (repeat split;
     [ .. | intros key Hkey;
            apply not_elem_of_cons in Hkey as [? Hkey];
            apply not_elem_of_cons in Hkey as [? Hkey];
            apply not_elem_of_cons in Hkey as [? Hkey];
            apply not_elem_of_cons in Hkey as [? _] ];
     repeat first [ rewrite lookup_map_insert_eq
                  | rewrite lookup_map_insert_ne by done ];
     by rewrite ?lookup_empty).
Qed.

(** X17.  The output directory after a run.  Once the checks on the
    request and on the directory have passed, the run leaves the output
    directory changed: "." stands in for a directory that is wanted and
    not set, a separator is appended to every directory that is not
    empty, whether it ends in one or not, and a second separator when a
    log file name is given.  The "-out" argument handed to transformix
    carries one appended separator, and the log file is named under the
    directory with both. *)
Theorem GenerateData_output_directory (env : Environment) (this : t) :
  nothing_requested this = false →
  directory_missing env this = false →
  conflicting this = false →
  m_OutputDirectory (this_ (snd (run env this)))
  = (if bool_decide (directory this = "") then ""
     else if m_LogToFile this && negb (bool_decide (m_LogFileName this = ""))
          then (directory this +:+ "/") +:+ "/"
          else directory this +:+ "/")
  ∧ arguments (normalized (resolved this)) !! "-out"
    = Some (if bool_decide (directory this = "") then "output_path_not_set"
            else directory this +:+ "/")
  ∧ (m_LogToFile this = true → m_LogFileName this ≠ "" →
     log_file_name (prepared this)
     = ((directory this +:+ "/") +:+ "/") +:+ m_LogFileName this).
Proof.
  intros H1 H2 H3. split; [|split].
  - rewrite <- m_OutputDirectory_prepared.
    rows env this; try done.
    by destruct resultImageContainer as [[|image rest]|].
  - destruct (arguments_lookup (normalized (resolved this))) as (-> & _).
    unfold normalized. rewrite m_OutputDirectory_resolved.
    destruct (bool_decide (directory this = "")) eqn:Hd.
    + by rewrite m_OutputDirectory_resolved, Hd.
    + cbn [m_OutputDirectory SetOutputDirectory].
      by rewrite bool_decide_eq_false_2 by (by destruct (directory this)).
  - intros Hlog Hname. unfold log_file_name.
    pose proof (request_prepared this) as Hp. unfold request in Hp.
    injection Hp as _ _ _ _ _ _ -> _ ->.
    rewrite Hlog, bool_decide_eq_false_2 by done.
    rewrite m_OutputDirectory_prepared, Hlog, bool_decide_eq_false_2.
    + by rewrite bool_decide_eq_false_2.
    + apply directory_wanted. unfold wants_output_directory.
      by rewrite Hlog, orb_true_r.
Qed.

(** X17 at the sample run into "out" with a log file name. *)
Lemma GenerateData_output_directory_witness :
  m_OutputDirectory (this_ (snd (run (environment ["out"] succeeds)
                                   (filter "" false "out" "run.log"))))
  = ("out" +:+ "/") +:+ "/"
  ∧ arguments (normalized (resolved (filter "" false "out" "run.log"))) !! "-out"
    = Some "out/"
  ∧ log_file_name (prepared (filter "" false "out" "run.log"))
    = "out//run.log".
Proof.
  destruct (GenerateData_output_directory (environment ["out"] succeeds)
              (filter "" false "out" "run.log") eq_refl eq_refl eq_refl)
    as (Hdir & Hout & Hlog).
  split; [exact Hdir|]. split; [exact Hout|].
  apply Hlog; [reflexivity|discriminate].
Defined.

(** ** What transformix is run on *)

(** A parameter map with the type information of lines 180-184 written
    over the caller's map. *)
Definition typed (env : Environment) (m m' : gmap string (list string)) : Prop :=
  m' !! "FixedInternalImagePixelType" = Some [PixelTypeString env]
  ∧ m' !! "FixedImageDimension" = Some [InputImageDimensionString env]
  ∧ m' !! "MovingInternalImagePixelType" = Some [PixelTypeString env]
  ∧ m' !! "MovingImageDimension" = Some [InputImageDimensionString env]
  ∧ m' !! "ResultImagePixelType" = Some [PixelTypeString env]
  ∧ ∀ key, key ∉ ["FixedInternalImagePixelType"; "FixedImageDimension";
                  "MovingInternalImagePixelType"; "MovingImageDimension";
                  "ResultImagePixelType"] →
           m' !! key = m !! key.

Lemma set_type_information_typed env m : typed env m (set_type_information env m).
Proof.
  unfold typed, set_type_information.
  repeat split;
    [ .. | intros key Hkey;
           apply not_elem_of_cons in Hkey as [? Hkey];
           apply not_elem_of_cons in Hkey as [? Hkey];
           apply not_elem_of_cons in Hkey as [? Hkey];
           apply not_elem_of_cons in Hkey as [? Hkey];
           apply not_elem_of_cons in Hkey as [? _] ];
    repeat first [ rewrite lookup_insert_eq | rewrite lookup_insert_ne by done ];
    done.
Qed.

Lemma set_type_information_maps env maps :
  Forall2 (typed env) maps (set_type_information env <$> maps).
Proof.
  induction maps as [|m maps IH]; constructor;
    [apply set_type_information_typed | exact IH].
Qed.

(** X18.  What transformix is run on.  A run consults transformix at one
    input only: the input image alone in a container (none when the image
    is empty); an argument map with "-out" (the directory with one
    separator appended, or "output_path_not_set"), "-jacmat" and "-jac"
    (each "all" when its flag is set), "-def" ("all" for the deformation
    field, else the point set file name when given) and no other key; and
    the caller's parameter maps, one for one, with the five type entries
    written over.  Two worlds that agree there, and on the file system,
    the log set-up and the type names, give the same run. *)
Theorem GenerateData_transformix_call (env env' : Environment) (this : t) :
  FileSystem env = FileSystem env' →
  (∀ name toFile toConsole,
     xoutSetup env name toFile toConsole = xoutSetup env' name toFile toConsole) →
  PixelTypeString env = PixelTypeString env' →
  InputImageDimensionString env = InputImageDimensionString env' →
  (∀ args maps,
     args !! "-out"
     = Some (if bool_decide (directory this = "") then "output_path_not_set"
             else directory this +:+ "/") →
     args !! "-jacmat"
     = (if m_ComputeSpatialJacobian this then Some "all" else None) →
     args !! "-jac"
     = (if m_ComputeDeterminantOfSpatialJacobian this then Some "all" else None) →
     args !! "-def"
     = (if m_ComputeDeformationField this then Some "all"
        else if bool_decide (m_InputPointSetFileName this = "") then None
             else Some (m_InputPointSetFileName this)) →
     (∀ key, key ∉ ["-out"; "-jacmat"; "-jac"; "-def"] → args !! key = None) →
     Forall2 (typed env) (TransformParameterObject this) maps →
     Run env (if IsEmpty (InputImage this) then None else Some [InputImage this])
       args maps
     = Run env' (if IsEmpty (InputImage this) then None else Some [InputImage this])
         args maps) →
  run env this = run env' this.
Proof.
  intros Hfiles Hxout Hpixel Hdim Hrun.
  rewrite !GenerateData_outcome. unfold outcome_of, FileExists.
  rewrite <- Hfiles.
  assert (∀ maps : list (gmap string (list string)),
            set_type_information env' <$> maps = set_type_information env <$> maps)
    as ->.
  { intros maps. unfold set_type_information. by rewrite Hpixel, Hdim. }
  rewrite <- Hxout.
  assert (Run env (input_container this)
            (arguments (normalized (resolved this)))
            (set_type_information env <$> TransformParameterObject this)
          = Run env' (input_container this)
              (arguments (normalized (resolved this)))
              (set_type_information env <$> TransformParameterObject this))
    as HR; [|by rewrite HR].
  replace (input_container this)
    with (if IsEmpty (InputImage this) then None else Some [InputImage this])
    by (unfold input_container; by destruct (IsEmpty (InputImage this))).
  apply Hrun.
  - destruct (arguments_lookup (normalized (resolved this))) as (-> & _).
    unfold normalized. rewrite m_OutputDirectory_resolved.
    destruct (bool_decide (directory this = "")) eqn:Hd.
    + by rewrite m_OutputDirectory_resolved, Hd.
    + cbn [m_OutputDirectory SetOutputDirectory].
      by rewrite bool_decide_eq_false_2 by (by destruct (directory this)).
  - destruct (arguments_lookup (normalized (resolved this))) as (_ & -> & _).
    by same_request (eq_trans (request_normalized (resolved this))
                              (request_resolved this)).
  - destruct (arguments_lookup (normalized (resolved this))) as (_ & _ & -> & _).
    by same_request (eq_trans (request_normalized (resolved this))
                              (request_resolved this)).
  - destruct (arguments_lookup (normalized (resolved this)))
      as (_ & _ & _ & -> & _).
    by same_request (eq_trans (request_normalized (resolved this))
                              (request_resolved this)).
  - by destruct (arguments_lookup (normalized (resolved this)))
      as (_ & _ & _ & _ & ?).
  - apply set_type_information_maps.
Qed.

(** A transformix that succeeds when it is asked to write the deformation
    field under "out/" for a three-dimensional float image, and throws
    otherwise. *)
Definition picky : Environment :=
  {| FileSystem := list_to_set ["out"];
     xoutSetup := λ _ _ _, 0;
     Run := λ _ args maps,
       if bool_decide (args !! "-out" = Some "out/")
          && bool_decide (args !! "-def" = Some "all")
          && bool_decide (maps ≫= (λ m, default [] (m !! "FixedImageDimension"))
                          = ["3"])
       then succeeds else RunThrows "unexpected";
     PixelTypeString := "float";
     InputImageDimensionString := "3" |}.

(** X18 at the sample run that writes a deformation field under "out". *)
Lemma GenerateData_transformix_call_witness :
  run (environment ["out"] succeeds) (filter "" true "out" "")
  = run picky (filter "" true "out" "").
Proof.
  apply GenerateData_transformix_call; try reflexivity.
  intros args maps Hout _ _ Hdef _ Hmaps.
  cbn [Run environment picky]. cbn in Hout, Hdef. rewrite Hout, Hdef.
  apply Forall2_cons_inv_l in Hmaps as (m' & rest & Hm' & Hrest & ->).
  apply Forall2_nil_inv_l in Hrest as ->.
  destruct Hm' as (_ & Hm' & _). cbn in Hm'. cbn. by rewrite Hm'.
Defined.

(** X19.  The calls a run makes, in order.  No call is made before the
    request and the directory are checked; then the log is set up, also
    when the parameter object turns out to be empty; transformix is run
    only after the log set-up succeeded on a parameter object that is not
    empty; and the components are unloaded only after transformix
    returned zero. *)
Theorem GenerateData_events (env : Environment) (this : t) :
  events (snd (run env this))
  = if nothing_requested this || directory_missing env this || conflicting this
    then []
    else XoutSetup (log_file_name (prepared this))
           (m_LogToFile this) (m_LogToConsole this)
         :: if xout_fails env this || no_parameter_map this then []
            else TransformixRun
                 :: match transformix_outcome env this with
                    | RunReturns isError _ =>
                        if bool_decide (isError = 0)
                        then [UnloadComponents] else []
                    | RunThrows _ => []
                    end.
Proof.
  rows env this; try done.
  all: match goal with H : bool_decide _ = _ |- _ => by rewrite H end.
Qed.

(** ** From construction to the run *)

(** The filter after [SetInputImage] and [SetTransformParameterObject] on
    a new filter. *)
Definition set_up (dim : nat) (maps0 : list (gmap string (list string)))
    (inputImage : Image)
    (parameterObject : list (gmap string (list string))) : t :=
  SetTransformParameterObject parameterObject
    (SetInputImage inputImage (Constructor dim maps0)).

Lemma IsEmpty_new (dim : nat) :
  (2 ≤ dim)%nat → IsEmpty {| Size := replicate dim 0 |} = true.
Proof.
  intros Hdim. destruct dim as [|[|dim]]; [lia..|]. reflexivity.
Qed.

(** X20.  From construction to the run.  A filter on which nothing was set
    after construction raises the nothing-requested error, in every world
    and whatever its parameter object.  Once an image that is not empty
    and a parameter object that is not empty are set, and nothing else,
    the run never looks at the file system and leaves the output directory
    empty: it sets up the log with no file name, runs transformix on the
    image, on the single argument "-out" with "output_path_not_set", and on
    the typed parameter maps, and concludes from what transformix
    answers.  (The new image of the constructor has at least two
    dimensions, as [IsEmpty] reads two size entries.) *)
Theorem Constructor_then_GenerateData
    (env : Environment) (dim : nat) (inputImage : Image)
    (maps0 maps : list (gmap string (list string))) :
  (2 ≤ dim)%nat →
  IsEmpty inputImage = false →
  maps ≠ [] →
  xoutSetup env "" false false = 0 →
  run env (Constructor dim maps0)
  = (Raise NothingRequested,
     {| this_ := Constructor dim maps0; events := [] |})
  ∧ run env (set_up dim maps0 inputImage maps)
    = concluded
        (Run env (Some [inputImage]) {[ "-out" := "output_path_not_set" ]}
           (set_type_information env <$> maps))
        (set_up dim maps0 inputImage maps)
        [XoutSetup "" false false; TransformixRun].
Proof.
  intros Hdim Himage Hmaps Hxout. split.
  - apply GenerateData_nothing_requested.
    unfold nothing_requested, Constructor. cbn [InputImage].
    by rewrite IsEmpty_new.
  - rewrite GenerateData_outcome. unfold outcome_of.
    assert (nothing_requested (set_up dim maps0 inputImage maps) = false) as ->.
    { unfold nothing_requested.
      cbn [set_up SetTransformParameterObject SetInputImage InputImage].
      by rewrite Himage. }
    assert (prepared (set_up dim maps0 inputImage maps)
            = set_up dim maps0 inputImage maps) as ->
      by reflexivity.
    assert (resolved (set_up dim maps0 inputImage maps)
            = set_up dim maps0 inputImage maps) as ->
      by reflexivity.
    change (wants_output_directory _) with false.
    change (m_ComputeDeformationField _) with false.
    change (m_LogToFile _) with false. change (m_LogToConsole _) with false.
    change (TransformParameterObject _) with maps.
    change (log_file_name _) with "". cbn [andb]. rewrite Hxout.
    rewrite bool_decide_eq_true_2 by done. cbn [negb].
    rewrite bool_decide_eq_false_2 by (by destruct maps).
    unfold input_container.
    change (InputImage (set_up dim maps0 inputImage maps)) with inputImage.
    rewrite Himage. reflexivity.
Qed.

(** X20 at the sample image and one parameter map, in three dimensions. *)
Lemma Constructor_then_GenerateData_witness :
  run (environment [] succeeds) (Constructor 3 [])
  = (Raise NothingRequested, {| this_ := Constructor 3 []; events := [] |})
  ∧ run (environment [] succeeds) (set_up 3 [] image [∅])
    = (Ok (),
       {| this_ := GraftOutput image (set_up 3 [] image [∅]);
          events := [XoutSetup "" false false; TransformixRun;
                     UnloadComponents] |}).
Proof.
  apply (Constructor_then_GenerateData (environment [] succeeds) 3 image [] [∅]);
    [lia|reflexivity|discriminate|reflexivity].
Defined.

End TransformixFilterExtra.
